(** * MathMathics: the storage layer of [src/routes.ts]

    A shallow embedding of [DatabaseStorage] (src/routes.ts, lines 207-501)
    and of the derived computations it contains: the XP/level update of
    [unlockAchievement], the streak scan of [updateUserStreak], the grade
    aggregation of [getDashboardData] and the two read-then-write upserts.

    Modelling conventions.
    - A table is the list of its rows in insertion order.  [select ... where]
      is [filter], [update ... set ... where ... returning] rewrites the
      matching rows in place and returns their new values, [insert] appends.
      Every expression of a SET clause is evaluated on the row as it was
      before the statement (standard SQL; the [.returning()] calls of the
      source exist only in the PostgreSQL and SQLite drivers of the ORM,
      which both behave so).
    - Integer columns and JavaScript integers are [Z]; a decimal column is
      the rational [Q] its text denotes.  The one place where the source
      computes with decimals, the grade of [getDashboardData], reads them
      through [Number(...)] and adds and divides doubles: there every
      operand and every result is rounded to IEEE 754 binary64 by
      [roundDouble].  A double written back with [toString()] is stored as
      the rational it is (the text denotes a decimal that [Number] reads
      back as that double); the scale of the column is not modelled.
      Timestamps are [Z] (milliseconds).
    - [src/] does not contain [@shared/schema]: the record types below carry
      the attributes of the data model together with the columns the code
      touches; column defaults are parameters.
    - [async] methods run to completion one after the other (no interleaving
      of requests): a method is a function from the world to an outcome and a
      new world.  A [throw] keeps the writes made before it, as the source has
      no transaction. *)

From Stdlib Require Import ZArith QArith Qround List String Bool Lia.
From Stdlib Require SpecFloat.
Import ListNotations.
Open Scope Z_scope.

(** ** Rows *)

Module User.
Record t := mk {
  id : Z;
  username : string;
  totalXp : Z;
  level : Z;
  currentStreak : Z;
  longestStreak : Z;
  lastActiveDate : option Z;
  overallGrade : Q;
  updatedAt : option Z
}.
End User.

(** [Partial<User>]: every field may be absent. *)
Module PartialUser.
Record t := mk {
  id : option Z;
  username : option string;
  totalXp : option Z;
  level : option Z;
  currentStreak : option Z;
  longestStreak : option Z;
  lastActiveDate : option (option Z);
  overallGrade : option Q;
  updatedAt : option (option Z)
}.
Definition empty : t := mk None None None None None None None None None.
End PartialUser.

Module CourseProgress.
Record t := mk {
  id : Z;
  userId : Z;
  topicId : string;
  score : Q;
  questionsCorrect : Z;
  questionsTotal : Z;
  completed : bool;
  difficulty : Z;
  lastAccessed : Z
}.
End CourseProgress.

(** [Partial<InsertCourseProgress>]: the insertable columns (all but the
    serial [id]), each optional. *)
Module PartialInsertCourseProgress.
Record t := mk {
  userId : option Z;
  topicId : option string;
  score : option Q;
  questionsCorrect : option Z;
  questionsTotal : option Z;
  completed : option bool;
  difficulty : option Z;
  lastAccessed : option Z
}.
Definition empty : t := mk None None None None None None None None.
End PartialInsertCourseProgress.

Module Achievement.
Record t := mk {
  id : Z;
  userId : Z;
  achievementType : string;
  title : string;
  description : string;
  icon : string;
  progress : Z;
  maxProgress : Z;
  unlocked : bool;
  unlockedAt : option Z;
  xpReward : Z
}.
End Achievement.

Module InsertQuizAttempt.
Record t := mk {
  userId : Z;
  topicId : string;
  score : Q;
  questionsCorrect : Z;
  questionsTotal : Z;
  difficulty : Z;
  timeSpent : Z
}.
End InsertQuizAttempt.

Module QuizAttempt.
Record t := mk {
  id : Z;
  userId : Z;
  topicId : string;
  score : Q;
  questionsCorrect : Z;
  questionsTotal : Z;
  difficulty : Z;
  timeSpent : Z;
  completedAt : Z
}.
End QuizAttempt.

Module DailyActivity.
Record t := mk {
  id : Z;
  userId : Z;
  date : Z;
  questionsAnswered : Z;
  timeSpent : Z;
  xpEarned : Z;
  streakMaintained : bool
}.
End DailyActivity.

(** [Partial<InsertDailyActivity>]. *)
Module PartialInsertDailyActivity.
Record t := mk {
  userId : option Z;
  date : option Z;
  questionsAnswered : option Z;
  timeSpent : option Z;
  xpEarned : option Z;
  streakMaintained : option bool
}.
Definition empty : t := mk None None None None None None.
End PartialInsertDailyActivity.

Module PracticeQuestion.
Record t := mk {
  id : Z;
  topicId : string;
  difficulty : Z;
  question : string
}.
End PracticeQuestion.

(** ** The database and the world *)

Record Store := mkStore {
  users : list User.t;
  courseProgress : list CourseProgress.t;
  achievements : list Achievement.t;
  quizAttempts : list QuizAttempt.t;
  dailyActivity : list DailyActivity.t;
  practiceQuestions : list PracticeQuestion.t;
  (* next value of the serial [id] of the tables the code inserts into *)
  courseProgressSeq : Z;
  quizAttemptsSeq : Z;
  dailyActivitySeq : Z
}.

(** [ticks] counts the [new Date()] calls made so far. *)
Record World := mkWorld {
  store : Store;
  ticks : nat
}.

Inductive outcome (A : Type) : Type :=
| Returned (a : A)
| Threw (e : string).
Arguments Returned {A} a.
Arguments Threw {A} e.

Definition M (A : Type) : Type := World -> outcome A * World.

Definition ret {A : Type} (a : A) : M A := fun w => (Returned a, w).

Definition bind {A B : Type} (m : M A) (k : A -> M B) : M B :=
  fun w =>
    match m w with
    | (Returned a, w') => k a w'
    | (Threw e, w') => (Threw e, w')
    end.

Definition throw {A : Type} (e : string) : M A := fun w => (Threw e, w).

Definition getStore : M Store := fun w => (Returned (store w), w).

Definition putStore (s : Store) : M unit :=
  fun w => (Returned tt, mkWorld s (ticks w)).

Declare Scope storage_scope.
Delimit Scope storage_scope with storage.
Notation "x <- c ;; k" := (bind c (fun x => k))
  (at level 61, c at next level, right associativity) : storage_scope.
Notation "c ;;; k" := (bind c (fun _ => k))
  (at level 61, right associativity) : storage_scope.

(** ** SQL statements on a table *)

Definition sqlUpdate {A : Type} (where_ : A -> bool) (set : A -> A)
    (rows : list A) : list A :=
  map (fun r => if where_ r then set r else r) rows.

(** The rows an [update ... returning()] hands back. *)
Definition sqlReturning {A : Type} (where_ : A -> bool) (set : A -> A)
    (rows : list A) : list A :=
  map set (filter where_ rows).

(** [.limit(1)] *)
Definition limit1 {A : Type} (rows : list A) : list A := firstn 1 rows.

(** ** JavaScript idioms *)

(** [x || 0] on an optional number: [undefined] and [0] both give [0]. *)
Definition orZero (x : option Z) : Z :=
  match x with
  | Some v => if v =? 0 then 0 else v
  | None => 0
  end.

(** Truthiness of a number, as in [if (difficulty)]: [0] is falsy. *)
Definition truthyNumber (n : Z) : bool := negb (n =? 0).

(** Truthiness of a string, as in [if (topicId)]: the empty string is falsy. *)
Definition truthyString (s : string) : bool := negb (String.eqb s EmptyString).

(** A field of a spread [{...row, ...updates}]: the update wins when present. *)
Definition spread {A : Type} (upd : option A) (old : A) : A :=
  match upd with
  | Some v => v
  | None => old
  end.

(** ** Functional record updates *)

Definition setUsers (s : Store) (l : list User.t) : Store :=
  mkStore l (courseProgress s) (achievements s) (quizAttempts s)
    (dailyActivity s) (practiceQuestions s)
    (courseProgressSeq s) (quizAttemptsSeq s) (dailyActivitySeq s).

Definition setCourseProgress (s : Store) (l : list CourseProgress.t)
    (next : Z) : Store :=
  mkStore (users s) l (achievements s) (quizAttempts s)
    (dailyActivity s) (practiceQuestions s)
    next (quizAttemptsSeq s) (dailyActivitySeq s).

Definition setAchievements (s : Store) (l : list Achievement.t) : Store :=
  mkStore (users s) (courseProgress s) l (quizAttempts s)
    (dailyActivity s) (practiceQuestions s)
    (courseProgressSeq s) (quizAttemptsSeq s) (dailyActivitySeq s).

Definition setQuizAttempts (s : Store) (l : list QuizAttempt.t)
    (next : Z) : Store :=
  mkStore (users s) (courseProgress s) (achievements s) l
    (dailyActivity s) (practiceQuestions s)
    (courseProgressSeq s) next (dailyActivitySeq s).

Definition setDailyActivity (s : Store) (l : list DailyActivity.t)
    (next : Z) : Store :=
  mkStore (users s) (courseProgress s) (achievements s) (quizAttempts s)
    l (practiceQuestions s)
    (courseProgressSeq s) (quizAttemptsSeq s) next.

(** [.set(updates)] on a user row: absent fields keep the stored value. *)
Definition applyPartialUser (p : PartialUser.t) (u : User.t) : User.t :=
  User.mk
    (spread (PartialUser.id p) (User.id u))
    (spread (PartialUser.username p) (User.username u))
    (spread (PartialUser.totalXp p) (User.totalXp u))
    (spread (PartialUser.level p) (User.level u))
    (spread (PartialUser.currentStreak p) (User.currentStreak u))
    (spread (PartialUser.longestStreak p) (User.longestStreak u))
    (spread (PartialUser.lastActiveDate p) (User.lastActiveDate u))
    (spread (PartialUser.overallGrade p) (User.overallGrade u))
    (spread (PartialUser.updatedAt p) (User.updatedAt u)).

(** [{ ...updates, updatedAt: now }] *)
Definition withUpdatedAt (p : PartialUser.t) (now : Z) : PartialUser.t :=
  PartialUser.mk
    (PartialUser.id p) (PartialUser.username p) (PartialUser.totalXp p)
    (PartialUser.level p) (PartialUser.currentStreak p)
    (PartialUser.longestStreak p) (PartialUser.lastActiveDate p)
    (PartialUser.overallGrade p) (Some (Some now)).

(** [.set(updates)] on a course-progress row. *)
Definition applyPartialCourseProgress (p : PartialInsertCourseProgress.t)
    (r : CourseProgress.t) : CourseProgress.t :=
  CourseProgress.mk
    (CourseProgress.id r)
    (spread (PartialInsertCourseProgress.userId p) (CourseProgress.userId r))
    (spread (PartialInsertCourseProgress.topicId p) (CourseProgress.topicId r))
    (spread (PartialInsertCourseProgress.score p) (CourseProgress.score r))
    (spread (PartialInsertCourseProgress.questionsCorrect p)
       (CourseProgress.questionsCorrect r))
    (spread (PartialInsertCourseProgress.questionsTotal p)
       (CourseProgress.questionsTotal r))
    (spread (PartialInsertCourseProgress.completed p)
       (CourseProgress.completed r))
    (spread (PartialInsertCourseProgress.difficulty p)
       (CourseProgress.difficulty r))
    (spread (PartialInsertCourseProgress.lastAccessed p)
       (CourseProgress.lastAccessed r)).

(** [{ ...updates, lastAccessed: now }] *)
Definition withLastAccessed (p : PartialInsertCourseProgress.t) (now : Z)
    : PartialInsertCourseProgress.t :=
  PartialInsertCourseProgress.mk
    (PartialInsertCourseProgress.userId p)
    (PartialInsertCourseProgress.topicId p)
    (PartialInsertCourseProgress.score p)
    (PartialInsertCourseProgress.questionsCorrect p)
    (PartialInsertCourseProgress.questionsTotal p)
    (PartialInsertCourseProgress.completed p)
    (PartialInsertCourseProgress.difficulty p)
    (Some now).

(** [{ userId, topicId, ...updates }]: the spread comes last, so a [userId] or
    [topicId] present in [updates] replaces the argument. *)
Definition keyedThenSpread (userId : Z) (topicId : string)
    (p : PartialInsertCourseProgress.t) : PartialInsertCourseProgress.t :=
  PartialInsertCourseProgress.mk
    (Some (spread (PartialInsertCourseProgress.userId p) userId))
    (Some (spread (PartialInsertCourseProgress.topicId p) topicId))
    (PartialInsertCourseProgress.score p)
    (PartialInsertCourseProgress.questionsCorrect p)
    (PartialInsertCourseProgress.questionsTotal p)
    (PartialInsertCourseProgress.completed p)
    (PartialInsertCourseProgress.difficulty p)
    (PartialInsertCourseProgress.lastAccessed p).

(** The row an [insert] creates: the given values over the column defaults,
    under a fresh serial id. *)
Definition insertedCourseProgress (newId : Z) (defaults : CourseProgress.t)
    (values : PartialInsertCourseProgress.t) : CourseProgress.t :=
  let r := applyPartialCourseProgress values defaults in
  CourseProgress.mk newId
    (CourseProgress.userId r) (CourseProgress.topicId r)
    (CourseProgress.score r) (CourseProgress.questionsCorrect r)
    (CourseProgress.questionsTotal r) (CourseProgress.completed r)
    (CourseProgress.difficulty r) (CourseProgress.lastAccessed r).

(** [.set({ unlocked: true, unlockedAt: now })] *)
Definition markUnlocked (now : Z) (a : Achievement.t) : Achievement.t :=
  Achievement.mk
    (Achievement.id a) (Achievement.userId a) (Achievement.achievementType a)
    (Achievement.title a) (Achievement.description a) (Achievement.icon a)
    (Achievement.progress a) (Achievement.maxProgress a)
    true (Some now) (Achievement.xpReward a).

(** The XP award of [unlockAchievement] (lines 298-304):
    [SET totalXp = totalXp + xpReward, level = FLOOR(totalXp / 100) + 1].
    Both right-hand sides read the row as it is before the statement;
    [/] on two integer columns is the truncating integer division of SQL. *)
Definition awardXp (xpReward : Z) (u : User.t) : User.t :=
  User.mk
    (User.id u) (User.username u)
    (User.totalXp u + xpReward)
    (Z.quot (User.totalXp u) 100 + 1)
    (User.currentStreak u) (User.longestStreak u) (User.lastActiveDate u)
    (User.overallGrade u) (User.updatedAt u).

(** The in-place accumulation of [updateDailyActivity] (lines 358-363). *)
Definition accumulate (activity : PartialInsertDailyActivity.t)
    (r : DailyActivity.t) : DailyActivity.t :=
  DailyActivity.mk
    (DailyActivity.id r) (DailyActivity.userId r) (DailyActivity.date r)
    (DailyActivity.questionsAnswered r
       + orZero (PartialInsertDailyActivity.questionsAnswered activity))
    (DailyActivity.timeSpent r
       + orZero (PartialInsertDailyActivity.timeSpent activity))
    (DailyActivity.xpEarned r
       + orZero (PartialInsertDailyActivity.xpEarned activity))
    true.

(** The row [updateDailyActivity] inserts (lines 370-377). *)
Definition firstOfDay (newId userId today : Z)
    (activity : PartialInsertDailyActivity.t) : DailyActivity.t :=
  DailyActivity.mk newId userId today
    (orZero (PartialInsertDailyActivity.questionsAnswered activity))
    (orZero (PartialInsertDailyActivity.timeSpent activity))
    (orZero (PartialInsertDailyActivity.xpEarned activity))
    true.

(** [.orderBy(desc(dailyActivity.date))] *)
Fixpoint insertByDateDesc (a : DailyActivity.t) (l : list DailyActivity.t)
    : list DailyActivity.t :=
  match l with
  | [] => [a]
  | b :: l' =>
      if DailyActivity.date b <=? DailyActivity.date a
      then a :: l
      else b :: insertByDateDesc a l'
  end.

Definition orderByDateDesc (l : list DailyActivity.t) : list DailyActivity.t :=
  fold_right insertByDateDesc [] l.

(** ** The streak scan (lines 478-493)

    The [for] loop of [updateUserStreak] with its three counters; [i] is the
    loop index of the head of [activities]. *)
Fixpoint streakLoop (activities : list DailyActivity.t) (i : Z)
    (currentStreak longestStreak tempStreak : Z) : Z * Z * Z :=
  match activities with
  | [] => (currentStreak, longestStreak, tempStreak)
  | a :: rest =>
      if DailyActivity.streakMaintained a then
        let tempStreak := tempStreak + 1 in
        let currentStreak := if i =? 0 then tempStreak else currentStreak in
        streakLoop rest (i + 1) currentStreak longestStreak tempStreak
      else
        let longestStreak := Z.max longestStreak tempStreak in
        streakLoop rest (i + 1) currentStreak longestStreak 0
  end.

(** The pair [(currentStreak, longestStreak)] written to the user. *)
Definition computeStreaks (activities : list DailyActivity.t) : Z * Z :=
  match streakLoop activities 0 0 0 0 with
  | (currentStreak, longestStreak, tempStreak) =>
      (currentStreak, Z.max longestStreak tempStreak)
  end.

(** ** The grade aggregation (lines 415-417) *)

Definition completedCourses (progress : list CourseProgress.t)
    : list CourseProgress.t :=
  filter CourseProgress.completed progress.

(** *** JavaScript numbers

    A finite double is the rational it equals; [None] stands for a result
    that is no finite double (an overflow to Infinity). *)

(** The [k] with [2^k <= n/d < 2^(k+1)], for positive [n] and [d]. *)
Definition floorLog2 (n d : Z) : Z :=
  let k := Z.log2 n - Z.log2 d in
  if (if 0 <=? k then d * 2 ^ k <=? n else d <=? n * 2 ^ (- k))
  then k
  else k - 1.

(** The integer nearest to [n/d], the even one on a tie. *)
Definition divNearestEven (n d : Z) : Z :=
  let q := n / d in
  match 2 * (n mod d) ?= d with
  | Lt => q
  | Gt => q + 1
  | Eq => if Z.even q then q else q + 1
  end.

(** Round-to-nearest, ties-to-even, of [n/d > 0] to binary64: a 53-bit
    significand [m] at the exponent [e] of the value, [e] not below that of
    the subnormals; past the largest double the result is Infinity. *)
Definition roundPositive (n d : Z) : option Q :=
  let e := Z.max (floorLog2 n d - 52) (-1074) in
  let m :=
    if 0 <=? e
    then divNearestEven n (d * 2 ^ e)
    else divNearestEven (n * 2 ^ (- e)) d in
  if (971 <? e) || ((e =? 971) && (2 ^ 53 <=? m))
  then None
  else Some (if 0 <=? e
             then inject_Z (m * 2 ^ e)
             else Qred (Qmake m (Z.to_pos (2 ^ (- e))))).

(** The double nearest to a rational. *)
Definition roundDouble (q : Q) : option Q :=
  let r := Qred q in
  match Qnum r with
  | 0 => Some 0%Q
  | Zpos n => roundPositive (Zpos n) (Zpos (Qden r))
  | Zneg n => option_map Qopp (roundPositive (Zpos n) (Zpos (Qden r)))
  end.

(** [Number(text)] of a decimal column. *)
Definition Number (decimal : Q) : option Q := roundDouble decimal.

(** [x + y] and [x / y] on doubles; the code divides by a length it has
    found positive. *)
Definition doubleAdd (x y : Q) : option Q := roundDouble (x + y)%Q.

Definition doubleDiv (x y : Q) : option Q := roundDouble (x / y)%Q.

(** [x !== y] on numbers, [x] finite. *)
Definition numbersDiffer (x : Q) (y : option Q) : bool :=
  match y with
  | Some v => negb (Qeq_bool x v)
  | None => true
  end.

(** [completedCourses.reduce((sum, p) => sum + Number(p.score), 0)] *)
Definition totalScore (completedRows : list CourseProgress.t) : option Q :=
  fold_left
    (fun sum p =>
       match sum, Number (CourseProgress.score p) with
       | Some s, Some x => doubleAdd s x
       | _, _ => None
       end)
    completedRows (Some 0%Q).

(** [completedCourses.length > 0 ? totalScore / completedCourses.length : 0] *)
Definition overallGradeOf (progress : list CourseProgress.t) : option Q :=
  let completedRows := completedCourses progress in
  if (0 <? Z.of_nat (List.length completedRows))
  then match totalScore completedRows with
       | Some total =>
           doubleDiv total (inject_Z (Z.of_nat (List.length completedRows)))
       | None => None
       end
  else Some 0%Q.

(** [{ ...user, overallGrade }] *)
Definition withOverallGrade (u : User.t) (g : Q) : User.t :=
  User.mk
    (User.id u) (User.username u) (User.totalXp u) (User.level u)
    (User.currentStreak u) (User.longestStreak u) (User.lastActiveDate u)
    g (User.updatedAt u).

Record Dashboard := mkDashboard {
  user : User.t;
  progress : list CourseProgress.t;
  dashboardAchievements : list Achievement.t;
  recentActivity : list DailyActivity.t
}.

(** ** The environment

    What the methods read from outside the database: the clock behind
    [new Date()], the local calendar behind [setHours(0, 0, 0, 0)] and
    [setDate(getDate() - days)], and the column defaults of the schema. *)
Record Env := mkEnv {
  (* the value of the n-th [new Date()] *)
  clock : nat -> Z;
  (* [d.setHours(0, 0, 0, 0)] *)
  startOfDay : Z -> Z;
  (* [d.setDate(d.getDate() - days)] *)
  minusDays : Z -> Z -> Z;
  (* the defaults of [course_progress] at a given moment *)
  courseProgressDefaults : nat -> CourseProgress.t;
  (* the default of [quiz_attempts.completedAt] at a given moment *)
  completedAtDefault : nat -> Z
}.

(** ** The methods of [DatabaseStorage] *)

Section Storage.

Context (env : Env).
Local Open Scope storage_scope.

(** [new Date()] *)
Definition newDate : M Z :=
  fun w => (Returned (clock env (ticks w)), mkWorld (store w) (S (ticks w))).

Definition defaultCourseProgress : M CourseProgress.t :=
  fun w => (Returned (courseProgressDefaults env (ticks w)), w).

Definition defaultCompletedAt : M Z :=
  fun w => (Returned (completedAtDefault env (ticks w)), w).

Definition userHasId (id : Z) (u : User.t) : bool := User.id u =? id.

(** lines 230-237 *)
Definition updateUser (id : Z) (updates : PartialUser.t)
    : M (option User.t) :=
  now <- newDate ;;
  s <- getStore ;;
  let set := applyPartialUser (withUpdatedAt updates now) in
  putStore (setUsers s (sqlUpdate (userHasId id) set (users s))) ;;;
  ret (hd_error (sqlReturning (userHasId id) set (users s))).

Definition progressOfUser (userId : Z) (p : CourseProgress.t) : bool :=
  CourseProgress.userId p =? userId.

Definition progressHasKey (userId : Z) (topicId : string)
    (p : CourseProgress.t) : bool :=
  (CourseProgress.userId p =? userId)
  && String.eqb (CourseProgress.topicId p) topicId.

(** lines 239-246 *)
Definition getCourseProgress (userId : Z) (topicId : option string)
    : M (list CourseProgress.t) :=
  s <- getStore ;;
  match topicId with
  | Some t =>
      if truthyString t
      then ret (filter (progressHasKey userId t) (courseProgress s))
      else ret (filter (progressOfUser userId) (courseProgress s))
  | None => ret (filter (progressOfUser userId) (courseProgress s))
  end.

(** lines 248-274 *)
Definition updateCourseProgress (userId : Z) (topicId : string)
    (updates : PartialInsertCourseProgress.t)
    : M (option CourseProgress.t) :=
  s <- getStore ;;
  let existing :=
    limit1 (filter (progressHasKey userId topicId) (courseProgress s)) in
  match existing with
  | _ :: _ =>
      now <- newDate ;;
      let set := applyPartialCourseProgress (withLastAccessed updates now) in
      putStore
        (setCourseProgress s
           (sqlUpdate (progressHasKey userId topicId) set (courseProgress s))
           (courseProgressSeq s)) ;;;
      ret (hd_error
             (sqlReturning (progressHasKey userId topicId) set
                (courseProgress s)))
  | [] =>
      defaults <- defaultCourseProgress ;;
      let row :=
        insertedCourseProgress (courseProgressSeq s) defaults
          (keyedThenSpread userId topicId updates) in
      putStore
        (setCourseProgress s (courseProgress s ++ [row])
           (courseProgressSeq s + 1)) ;;;
      ret (Some row)
  end.

(** lines 276-278 *)
Definition getUserAchievements (userId : Z) : M (list Achievement.t) :=
  s <- getStore ;;
  ret (filter (fun a => Achievement.userId a =? userId) (achievements s)).

Definition achievementHasKey (userId : Z) (achievementType : string)
    (a : Achievement.t) : bool :=
  (Achievement.userId a =? userId)
  && String.eqb (Achievement.achievementType a) achievementType.

(** lines 289-308.  With no matching row [achievement] is [undefined] and
    reading [achievement.xpReward] throws. *)
Definition unlockAchievement (userId : Z) (achievementType : string)
    : M Achievement.t :=
  now <- newDate ;;
  s <- getStore ;;
  let where_ := achievementHasKey userId achievementType in
  putStore
    (setAchievements s (sqlUpdate where_ (markUnlocked now) (achievements s))) ;;;
  match sqlReturning where_ (markUnlocked now) (achievements s) with
  | [] => throw "TypeError: Cannot read properties of undefined (reading 'xpReward')"
  | achievement :: _ =>
      (if 0 <? Achievement.xpReward achievement then
         s' <- getStore ;;
         putStore
           (setUsers s'
              (sqlUpdate (userHasId userId)
                 (awardXp (Achievement.xpReward achievement)) (users s')))
       else ret tt) ;;;
      ret achievement
  end.

Definition activityInWindow (userId startDate : Z) (a : DailyActivity.t)
    : bool :=
  (DailyActivity.userId a =? userId) && (startDate <=? DailyActivity.date a).

(** lines 387-396 *)
Definition getDailyActivity (userId days : Z) : M (list DailyActivity.t) :=
  now <- newDate ;;
  let startDate := minusDays env now days in
  s <- getStore ;;
  ret (orderByDateDesc
         (filter (activityInWindow userId startDate) (dailyActivity s))).

(** lines 475-500 *)
Definition updateUserStreak (userId : Z) : M unit :=
  activities <- getDailyActivity userId 30 ;;
  let streaks := computeStreaks activities in
  now <- newDate ;;
  updateUser userId
    (PartialUser.mk None None None None
       (Some (fst streaks)) (Some (snd streaks)) (Some (Some now))
       None None) ;;;
  ret tt.

Definition activityOfDay (userId today : Z) (a : DailyActivity.t) : bool :=
  (DailyActivity.userId a =? userId) && (DailyActivity.date a =? today).

Definition activityHasId (id : Z) (a : DailyActivity.t) : bool :=
  DailyActivity.id a =? id.

(** lines 345-385 *)
Definition updateDailyActivity (userId : Z)
    (activity : PartialInsertDailyActivity.t)
    : M (option DailyActivity.t) :=
  now <- newDate ;;
  let today := startOfDay env now in
  s <- getStore ;;
  let existing :=
    limit1 (filter (activityOfDay userId today) (dailyActivity s)) in
  match existing with
  | existing0 :: _ =>
      let where_ := activityHasId (DailyActivity.id existing0) in
      putStore
        (setDailyActivity s
           (sqlUpdate where_ (accumulate activity) (dailyActivity s))
           (dailyActivitySeq s)) ;;;
      ret (hd_error
             (sqlReturning where_ (accumulate activity) (dailyActivity s)))
  | [] =>
      let newActivity :=
        firstOfDay (dailyActivitySeq s) userId today activity in
      putStore
        (setDailyActivity s (dailyActivity s ++ [newActivity])
           (dailyActivitySeq s + 1)) ;;;
      updateUserStreak userId ;;;
      ret (Some newActivity)
  end.

(** The arguments [saveQuizAttempt] passes on (lines 317-330). *)
Definition progressOfAttempt (attempt : InsertQuizAttempt.t)
    : PartialInsertCourseProgress.t :=
  PartialInsertCourseProgress.mk None None
    (Some (InsertQuizAttempt.score attempt))
    (Some (InsertQuizAttempt.questionsCorrect attempt))
    (Some (InsertQuizAttempt.questionsTotal attempt))
    (Some (Qle_bool 70 (InsertQuizAttempt.score attempt)))
    (Some (InsertQuizAttempt.difficulty attempt))
    None.

Definition activityOfAttempt (attempt : InsertQuizAttempt.t)
    : PartialInsertDailyActivity.t :=
  PartialInsertDailyActivity.mk None None
    (Some (InsertQuizAttempt.questionsTotal attempt))
    (Some (InsertQuizAttempt.timeSpent attempt / 60))
    (Some (Qfloor (InsertQuizAttempt.score attempt)))
    None.

Definition insertedQuizAttempt (newId completedAt : Z)
    (attempt : InsertQuizAttempt.t) : QuizAttempt.t :=
  QuizAttempt.mk newId
    (InsertQuizAttempt.userId attempt) (InsertQuizAttempt.topicId attempt)
    (InsertQuizAttempt.score attempt)
    (InsertQuizAttempt.questionsCorrect attempt)
    (InsertQuizAttempt.questionsTotal attempt)
    (InsertQuizAttempt.difficulty attempt)
    (InsertQuizAttempt.timeSpent attempt)
    completedAt.

(** lines 310-333 *)
Definition saveQuizAttempt (attempt : InsertQuizAttempt.t)
    : M QuizAttempt.t :=
  s <- getStore ;;
  completedAt <- defaultCompletedAt ;;
  let quizAttempt :=
    insertedQuizAttempt (quizAttemptsSeq s) completedAt attempt in
  putStore
    (setQuizAttempts s (quizAttempts s ++ [quizAttempt])
       (quizAttemptsSeq s + 1)) ;;;
  updateCourseProgress (InsertQuizAttempt.userId attempt)
    (InsertQuizAttempt.topicId attempt) (progressOfAttempt attempt) ;;;
  updateDailyActivity (InsertQuizAttempt.userId attempt)
    (activityOfAttempt attempt) ;;;
  ret quizAttempt.

Definition questionOfTopic (topicId : string) (q : PracticeQuestion.t)
    : bool :=
  String.eqb (PracticeQuestion.topicId q) topicId.

(** lines 398-406 *)
Definition getPracticeQuestions (topicId : string) (difficulty : option Z)
    : M (list PracticeQuestion.t) :=
  s <- getStore ;;
  match difficulty with
  | Some d =>
      if truthyNumber d
      then ret (filter
                  (fun q => questionOfTopic topicId q
                            && (PracticeQuestion.difficulty q =? d))
                  (practiceQuestions s))
      else ret (filter (questionOfTopic topicId) (practiceQuestions s))
  | None => ret (filter (questionOfTopic topicId) (practiceQuestions s))
  end.

(** lines 408-430.  With no such user [user] is [undefined] and reading
    [user.overallGrade] throws.  A grade that is no finite double differs
    from every stored grade and its text is no decimal: the write to the
    decimal column is refused. *)
Definition getDashboardData (userId : Z) : M Dashboard :=
  s <- getStore ;;
  let found := hd_error (filter (userHasId userId) (users s)) in
  progress <- getCourseProgress userId None ;;
  userAchievements <- getUserAchievements userId ;;
  recentActivity <- getDailyActivity userId 7 ;;
  match found with
  | None => throw "TypeError: Cannot read properties of undefined (reading 'overallGrade')"
  | Some user =>
      match overallGradeOf progress with
      | Some overallGrade =>
          (if numbersDiffer overallGrade (Number (User.overallGrade user)) then
             updateUser userId
               (PartialUser.mk None None None None None None None
                  (Some overallGrade) None) ;;;
             ret tt
           else ret tt) ;;;
          ret (mkDashboard (withOverallGrade user overallGrade)
                 progress userAchievements recentActivity)
      | None => throw "StorageError: the decimal column cannot hold Infinity"
      end
  end.

End Storage.


From Stdlib Require Import Sorted Permutation.

(** ** The remaining methods of [DatabaseStorage]

    The reads and the single-statement writes that need neither the clock
    nor a column default. *)

Section Lookups.

Local Open Scope storage_scope.

(** lines 208-211: [user || undefined] *)
Definition getUser (id : Z) : M (option User.t) :=
  s <- getStore ;;
  ret (hd_error (filter (userHasId id) (users s))).

Definition userHasName (username : string) (u : User.t) : bool :=
  String.eqb (User.username u) username.

(** lines 213-216 *)
Definition getUserByUsername (username : string) : M (option User.t) :=
  s <- getStore ;;
  ret (hd_error (filter (userHasName username) (users s))).

(** [.set({ progress })] *)
Definition withProgress (progress : Z) (a : Achievement.t) : Achievement.t :=
  Achievement.mk
    (Achievement.id a) (Achievement.userId a) (Achievement.achievementType a)
    (Achievement.title a) (Achievement.description a) (Achievement.icon a)
    progress (Achievement.maxProgress a)
    (Achievement.unlocked a) (Achievement.unlockedAt a) (Achievement.xpReward a).

(** lines 280-287 *)
Definition updateAchievement (userId : Z) (achievementType : string)
    (progress : Z) : M (option Achievement.t) :=
  s <- getStore ;;
  let where_ := achievementHasKey userId achievementType in
  putStore
    (setAchievements s
       (sqlUpdate where_ (withProgress progress) (achievements s))) ;;;
  ret (hd_error (sqlReturning where_ (withProgress progress) (achievements s))).

(** [.orderBy(desc(quizAttempts.completedAt))] *)
Fixpoint insertByCompletedAtDesc (a : QuizAttempt.t) (l : list QuizAttempt.t)
    : list QuizAttempt.t :=
  match l with
  | [] => [a]
  | b :: l' =>
      if QuizAttempt.completedAt b <=? QuizAttempt.completedAt a
      then a :: l
      else b :: insertByCompletedAtDesc a l'
  end.

Definition orderByCompletedAtDesc (l : list QuizAttempt.t)
    : list QuizAttempt.t :=
  fold_right insertByCompletedAtDesc [] l.

Definition attemptOfUser (userId : Z) (a : QuizAttempt.t) : bool :=
  QuizAttempt.userId a =? userId.

Definition attemptHasKey (userId : Z) (topicId : string) (a : QuizAttempt.t)
    : bool :=
  (QuizAttempt.userId a =? userId)
  && String.eqb (QuizAttempt.topicId a) topicId.

(** lines 335-343.  The second [.where] replaces the first one and names the
    user again; the ordering of the query stays. *)
Definition getQuizAttempts (userId : Z) (topicId : option string)
    : M (list QuizAttempt.t) :=
  s <- getStore ;;
  match topicId with
  | Some t =>
      if truthyString t
      then ret (orderByCompletedAtDesc
                  (filter (attemptHasKey userId t) (quizAttempts s)))
      else ret (orderByCompletedAtDesc
                  (filter (attemptOfUser userId) (quizAttempts s)))
  | None =>
      ret (orderByCompletedAtDesc
             (filter (attemptOfUser userId) (quizAttempts s)))
  end.

End Lookups.

(** ** Creating a user (lines 218-228 and 432-473)

    [createUser] inserts into [users] and [achievements], whose serial ids
    are kept beside the world; the column defaults of the two tables and the
    four icon literals are parameters. *)

(** [InsertUser]: the insertable columns of a user. *)
Module InsertUser.
Record t := mk {
  username : string;
  totalXp : option Z;
  level : option Z;
  currentStreak : option Z;
  longestStreak : option Z;
  lastActiveDate : option (option Z);
  overallGrade : option Q
}.
End InsertUser.

Record Catalog := mkCatalog {
  world : World;
  usersSeq : Z;
  achievementsSeq : Z
}.

Record Seeds := mkSeeds {
  (* the defaults of [users] at a given moment *)
  userDefaults : nat -> User.t;
  (* the defaults of [achievements] at a given moment *)
  achievementDefaults : nat -> Achievement.t;
  (* the [icon] literals of the four default achievements, in order *)
  icons : string * string * string * string
}.

(** The row an [insert] into [users] creates. *)
Definition insertedUser (newId : Z) (defaults : User.t)
    (values : InsertUser.t) : User.t :=
  User.mk newId
    (InsertUser.username values)
    (spread (InsertUser.totalXp values) (User.totalXp defaults))
    (spread (InsertUser.level values) (User.level defaults))
    (spread (InsertUser.currentStreak values) (User.currentStreak defaults))
    (spread (InsertUser.longestStreak values) (User.longestStreak defaults))
    (spread (InsertUser.lastActiveDate values) (User.lastActiveDate defaults))
    (spread (InsertUser.overallGrade values) (User.overallGrade defaults))
    (User.updatedAt defaults).

(** One element of [defaultAchievements] as the row its insert creates. *)
Definition seededAchievement (newId userId : Z) (defaults : Achievement.t)
    (achievementType title description icon : string)
    (maxProgress xpReward : Z) : Achievement.t :=
  Achievement.mk newId userId achievementType title description icon
    (Achievement.progress defaults) maxProgress
    (Achievement.unlocked defaults) (Achievement.unlockedAt defaults)
    xpReward.

(** lines 433-470 *)
Definition defaultAchievements (seeds : Seeds) (firstId userId : Z)
    (defaults : Achievement.t) : list Achievement.t :=
  match icons seeds with
  | (icon1, icon2, icon3, icon4) =>
      [seededAchievement firstId userId defaults
         "number_master" "Number Master" "Complete the Numbers topic"
         icon1 1 100;
       seededAchievement (firstId + 1) userId defaults
         "perfect_score" "Perfect Score" "Get 100% on 5 topics"
         icon2 5 250;
       seededAchievement (firstId + 2) userId defaults
         "streak_master" "Streak Master" "7 day learning streak"
         icon3 7 200;
       seededAchievement (firstId + 3) userId defaults
         "math_graduate" "Math Graduate" "Complete all 8 topics"
         icon4 8 500]
  end.

(** lines 432-473 *)
Definition initializeUserAchievements (seeds : Seeds) (userId : Z)
    (c : Catalog) : Catalog :=
  let w := world c in
  let rows :=
    defaultAchievements seeds (achievementsSeq c) userId
      (achievementDefaults seeds (ticks w)) in
  mkCatalog
    (mkWorld
       (setAchievements (store w) (achievements (store w) ++ rows))
       (ticks w))
    (usersSeq c)
    (achievementsSeq c + 4).

(** lines 218-228 *)
Definition createUser (seeds : Seeds) (insertUser : InsertUser.t)
    (c : Catalog) : User.t * Catalog :=
  let w := world c in
  let user :=
    insertedUser (usersSeq c) (userDefaults seeds (ticks w)) insertUser in
  let c1 :=
    mkCatalog
      (mkWorld (setUsers (store w) (users (store w) ++ [user])) (ticks w))
      (usersSeq c + 1)
      (achievementsSeq c) in
  (user, initializeUserAchievements seeds (User.id user) c1).
(** ** Concrete environments and databases

    Used to run the methods on explicit inputs. *)

Open Scope string_scope.
Open Scope list_scope.
Open Scope Z_scope.

Definition msPerDay : Z := 86400000.

(** A server in UTC whose clock advances one second per reading, starting
    at noon of day 10; every default is zero-like. *)
Definition utcEnv : Env :=
  mkEnv
    (fun n => 10 * msPerDay + 43200000 + 1000 * Z.of_nat n)
    (fun t => t - t mod msPerDay)
    (fun t days => t - days * msPerDay)
    (fun _ => CourseProgress.mk 0 0 "" 0 0 0 false 1 0)
    (fun n => 10 * msPerDay + 43200000 + 1000 * Z.of_nat n).

Definition emptyStore : Store := mkStore [] [] [] [] [] [] 1 1 1.

Definition alice : User.t := User.mk 1 "alice" 250 3 0 0 None 0 None.
Definition bob : User.t := User.mk 2 "bob" 40 1 0 0 None 0 None.

(** The first seeded achievement of [initializeUserAchievements]. *)
Definition numberMaster (id userId : Z) (unlocked : bool) : Achievement.t :=
  Achievement.mk id userId "number_master" "Number Master"
    "Complete the Numbers topic" "numbers" 0 1 unlocked
    (if unlocked then Some 0 else None) 100.

Definition worldWithAchievement (unlocked : bool) : World :=
  mkWorld
    (setAchievements (setUsers emptyStore [alice; bob])
       [numberMaster 1 1 unlocked; numberMaster 2 2 false])
    0.

(** The activity row of a user for day [d], dated midnight of that day. *)
Definition activityOn (userId d : Z) (maintained : bool) : DailyActivity.t :=
  DailyActivity.mk (100 * d + userId) userId (d * msPerDay) 4 10 50 maintained.

(** Days 10, 9, 8, 7 (most recent first) carry the given flags. *)
Definition worldWithFlags (f10 f9 f8 f7 : bool) : World :=
  mkWorld
    (setDailyActivity (setUsers emptyStore [alice; bob])
       [activityOn 1 7 f7; activityOn 1 8 f8; activityOn 2 9 true;
        activityOn 1 9 f9; activityOn 1 10 f10]
       2000)
    0.

(** ** Auxiliary definitions for the statements *)

(** The fields [updateUserStreak] hands to [updateUser], with the
    [updatedAt] stamp [updateUser] adds. *)
Definition streakFields (current longest lastActive stamp : Z)
    : PartialUser.t :=
  PartialUser.mk None None None None
    (Some current) (Some longest) (Some (Some lastActive))
    None (Some (Some stamp)).

(** The rows [getDailyActivity] selects, in the order it returns them. *)
Definition activityWindow (env : Env) (userId days : Z) (w : World)
    : list DailyActivity.t :=
  orderByDateDesc
    (filter
       (activityInWindow userId (minusDays env (clock env (ticks w)) days))
       (dailyActivity (store w))).

(** The day [updateDailyActivity] resolves as "today" when it starts in [w]. *)
Definition todayOf (env : Env) (w : World) : Z :=
  startOfDay env (clock env (ticks w)).

(** The rows of [userId] for that day. *)
Definition rowsOfToday (env : Env) (userId : Z) (w : World)
    : list DailyActivity.t :=
  filter (activityOfDay userId (todayOf env w)) (dailyActivity (store w)).

(** The world right after the insert of [updateDailyActivity]'s else branch,
    before [updateUserStreak] runs. *)
Definition afterFirstOfDay (env : Env) (userId : Z)
    (activity : PartialInsertDailyActivity.t) (w : World) : World :=
  mkWorld
    (setDailyActivity (store w)
       (dailyActivity (store w)
          ++ [firstOfDay (dailyActivitySeq (store w)) userId (todayOf env w)
                activity])
       (dailyActivitySeq (store w) + 1))
    (S (ticks w)).

(** [{ questionsAnswered: n }] *)
Definition answered (n : Z) : PartialInsertDailyActivity.t :=
  PartialInsertDailyActivity.mk None None (Some n) None None None.

(** User 1 has a row for day 10 (today for [utcEnv]) and one for day 9. *)
Definition worldWithToday : World :=
  mkWorld
    (setDailyActivity (setUsers emptyStore [alice; bob])
       [activityOn 1 9 true; activityOn 2 10 true; activityOn 1 10 false]
       2000)
    0.

(** User 1 has no row for day 10 yet. *)
Definition worldWithoutToday : World :=
  mkWorld
    (setDailyActivity (setUsers emptyStore [alice; bob])
       [activityOn 1 9 true; activityOn 2 10 true]
       2000)
    0.

(** [id] is the primary key of [daily_activity]. *)
Definition dailyActivityIdsUnique (s : Store) : Prop :=
  NoDup (map DailyActivity.id (dailyActivity s)).

(** Serial ids already handed out lie below the sequence. *)
Definition dailyActivityIdsIssued (s : Store) : Prop :=
  Forall (fun a => DailyActivity.id a < dailyActivitySeq s) (dailyActivity s).

Definition worldWithUsers : World :=
  mkWorld (setUsers emptyStore [alice; bob]) 0.

(** [{ score: q }] *)
Definition scoreOnly (q : Q) : PartialInsertCourseProgress.t :=
  PartialInsertCourseProgress.mk None None (Some q) None None None None None.

(** [{ topicId: t, score: q }]: an update that names a topic itself. *)
Definition scoreForTopic (t : string) (q : Q) : PartialInsertCourseProgress.t :=
  PartialInsertCourseProgress.mk None (Some t) (Some q) None None None None
    None.

(** The world right after the insert of [saveQuizAttempt], before the two
    follow-up calls. *)
Definition afterAttemptInsert (env : Env) (attempt : InsertQuizAttempt.t)
    (w : World) : World :=
  mkWorld
    (setQuizAttempts (store w)
       (quizAttempts (store w)
          ++ [insertedQuizAttempt (quizAttemptsSeq (store w))
                (completedAtDefault env (ticks w)) attempt])
       (quizAttemptsSeq (store w) + 1))
    (ticks w).


(** An attempt of user 1 on algebra: 10 questions in 754 seconds. *)
Definition attemptWithScore (score : Q) (correct : Z) : InsertQuizAttempt.t :=
  InsertQuizAttempt.mk 1 "algebra" score correct 10 2 754.

Definition sumOf (scores : list Q) : Q := fold_right Qplus 0%Q scores.

(** The arithmetic mean in the words of the specification, to compare the
    code's [reduce] and division with: the sum of the values over their
    number, and 0 when there is no value. *)
Definition arithmeticMean (scores : list Q) : Q :=
  match scores with
  | [] => 0%Q
  | _ :: _ => (sumOf scores / inject_Z (Z.of_nat (List.length scores)))%Q
  end.

(** The rows whose score enters the grade of [userId]. *)
Definition completedOf (userId : Z) (w : World) : list CourseProgress.t :=
  filter CourseProgress.completed
    (filter (progressOfUser userId) (courseProgress (store w))).

(** The fields [getDashboardData] hands to [updateUser], with the
    [updatedAt] stamp [updateUser] adds. *)
Definition gradeFields (g : Q) (stamp : Z) : PartialUser.t :=
  PartialUser.mk None None None None None None None (Some g)
    (Some (Some stamp)).

Definition progressRow (id userId : Z) (topicId : string) (score : Q)
    (completed : bool) : CourseProgress.t :=
  CourseProgress.mk id userId topicId score 10 10 completed 1 0.

(** User 1 completed three topics with 100, 80 and 60, and left a fourth
    open at 20; user 2 completed one with 10. *)
Definition worldWithProgress : World :=
  mkWorld
    (setCourseProgress (setUsers emptyStore [alice; bob])
       [progressRow 1 1 "numbers" 100 true; progressRow 2 2 "numbers" 10 true;
        progressRow 3 1 "algebra" 80 true; progressRow 4 1 "geometry" 20 false;
        progressRow 5 1 "fractions" 60 true]
       6)
    0.

Definition question (id : Z) (topicId : string) (difficulty : Z)
    : PracticeQuestion.t :=
  PracticeQuestion.mk id topicId difficulty "2 + 2".

Definition worldWithQuestions : World :=
  mkWorld
    (mkStore [] [] [] []  []
       [question 1 "numbers" 1; question 2 "algebra" 1; question 3 "numbers" 2]
       1 1 1)
    0.

(** A rational that is a double: rounding returns it. *)
Definition representable (q : Q) : Prop :=
  exists r, roundDouble q = Some r /\ (r == q)%Q.

(** Every score and every partial sum of the scores, added to [sum] from
    left to right, is a double. *)
Fixpoint sumsRepresentable (sum : Q) (scores : list Q) : Prop :=
  match scores with
  | [] => True
  | s :: rest =>
      representable s /\ representable (sum + s)
      /\ sumsRepresentable (sum + s)%Q rest
  end.

(** No operation of the grade computation rounds. *)
Definition meanRepresentable (scores : list Q) : Prop :=
  sumsRepresentable 0%Q scores /\ representable (arithmeticMean scores).

(** The grade computation of [getDashboardData] on the list of the completed
    rows' scores. *)
Definition doubleSum (scores : list Q) (start : option Q) : option Q :=
  fold_left
    (fun sum score =>
       match sum, Number score with
       | Some s, Some x => doubleAdd s x
       | _, _ => None
       end)
    scores start.

Definition doubleMean (scores : list Q) : option Q :=
  if (0 <? Z.of_nat (List.length scores))
  then match doubleSum scores (Some 0%Q) with
       | Some total => doubleDiv total (inject_Z (Z.of_nat (List.length scores)))
       | None => None
       end
  else Some 0%Q.

(** User 4 completed two topics with 92.8 and 83.6; the stored grade is
    their mean, 88.2. *)
Definition dana : User.t := User.mk 4 "dana" 0 1 0 0 None (882 # 10) None.

Definition worldWithFractions : World :=
  mkWorld
    (setCourseProgress (setUsers emptyStore [dana])
       [progressRow 1 4 "numbers" (928 # 10) true;
        progressRow 2 4 "algebra" (836 # 10) true]
       3)
    0.

(** The rational a float of the standard library's IEEE 754 specification
    equals, to compare [roundDouble] with that arithmetic at binary64. *)
Definition valueOfFloat (f : SpecFloat.spec_float) : option Q :=
  match f with
  | SpecFloat.S754_zero _ => Some 0%Q
  | SpecFloat.S754_finite s m e =>
      let v :=
        if 0 <=? e
        then inject_Z (Zpos m * 2 ^ e)
        else Qmake (Zpos m) (Z.to_pos (2 ^ (- e))) in
      Some (if s then Qopp v else v)
  | _ => None
  end.

Definition sameNumber (x y : option Q) : bool :=
  match x, y with
  | Some a, Some b => Qeq_bool a b
  | None, None => true
  | _, _ => false
  end.

Definition floatOfZ (z : Z) : SpecFloat.spec_float :=
  SpecFloat.binary_normalize 53 1024 z 0 false.

(** ** Auxiliary definitions for the further properties *)

(** The length of the run of [true] that starts a list of flags. *)
Fixpoint leadingRun (flags : list bool) : Z :=
  match flags with
  | true :: rest => 1 + leadingRun rest
  | _ => 0
  end.

(** The length of the longest run of consecutive [true] in a list of flags. *)
Fixpoint longestRun (flags : list bool) : Z :=
  match flags with
  | [] => 0
  | _ :: rest => Z.max (leadingRun flags) (longestRun rest)
  end.

(** Most recent first. *)
Definition newerFirst (a b : DailyActivity.t) : Prop :=
  DailyActivity.date b <= DailyActivity.date a.

Definition laterFirst (a b : QuizAttempt.t) : Prop :=
  QuizAttempt.completedAt b <= QuizAttempt.completedAt a.

(** The columns of a user that only an XP award or the dashboard write. *)
Definition accountOf (u : User.t) : Z * string * Z * Z * Q :=
  (User.id u, User.username u, User.totalXp u, User.level u,
   User.overallGrade u).

(** What [unlockAchievement] and [updateAchievement] leave to each other. *)
Definition lockOf (a : Achievement.t) : bool * option Z * Z :=
  (Achievement.unlocked a, Achievement.unlockedAt a, Achievement.xpReward a).

(** The serial ids handed out so far lie below the sequences, and every
    achievement belongs to a user that has been created. *)
Definition catalogIssued (c : Catalog) : Prop :=
  Forall (fun u => User.id u < usersSeq c) (users (store (world c)))
  /\ Forall (fun a => Achievement.id a < achievementsSeq c
                      /\ Achievement.userId a < usersSeq c)
       (achievements (store (world c))).

Definition plainSeeds : Seeds :=
  mkSeeds
    (fun _ => User.mk 0 "" 0 1 0 0 None 0 None)
    (fun _ => Achievement.mk 0 0 "" "" "" "" 0 0 false None 0)
    ("numbers", "star", "fire", "cap").

(** [{ username }] *)
Definition named (username : string) : InsertUser.t :=
  InsertUser.mk username None None None None None None.

(** Alice and Bob exist, with one achievement each; the next ids are free. *)
Definition catalogWithUsers : Catalog :=
  mkCatalog (worldWithAchievement false) 3 3.

(** User 1 has attempts on two topics, stored out of order. *)
Definition attemptAt (id userId : Z) (topicId : string) (completedAt : Z)
    : QuizAttempt.t :=
  QuizAttempt.mk id userId topicId 80 8 10 1 300 completedAt.

Definition worldWithAttempts : World :=
  mkWorld
    (setQuizAttempts (setUsers emptyStore [alice; bob])
       [attemptAt 1 1 "numbers" 500; attemptAt 2 2 "numbers" 900;
        attemptAt 3 1 "algebra" 700; attemptAt 4 1 "numbers" 600]
       5)
    0.

(** ** Running the monad *)

Ltac run :=
  unfold bind, ret, throw, getStore, putStore, newDate,
    defaultCourseProgress, defaultCompletedAt; simpl.

(** ** XP and level *)

Lemma awardXp_totalXp (r : Z) (u : User.t) :
  User.totalXp (awardXp r u) = User.totalXp u + r.
Proof. reflexivity. Qed.

Lemma awardXp_level (r : Z) (u : User.t) :
  User.level (awardXp r u) = Z.quot (User.totalXp u) 100 + 1.
Proof. reflexivity. Qed.

Lemma awardXp_id (r : Z) (u : User.t) : User.id (awardXp r u) = User.id u.
Proof. reflexivity. Qed.

(** Whenever the award crosses a multiple of 100 the stored level is below
    the level of the stored [totalXp]. *)
Lemma awardXp_level_stale (r : Z) (u : User.t) :
  0 <= User.totalXp u ->
  100 <= User.totalXp u mod 100 + r ->
  User.level (awardXp r u) < User.totalXp (awardXp r u) / 100 + 1.
Proof.
  intros Hxp Hr. rewrite awardXp_level, awardXp_totalXp.
  rewrite Z.quot_div_nonneg by lia.
  assert (User.totalXp u / 100 + 1 <= (User.totalXp u + r) / 100); [|lia].
  apply Z.div_le_lower_bound; [lia|].
  pose proof (Z.div_mod (User.totalXp u) 100 ltac:(lia)). lia.
Qed.

(** What a call of [unlockAchievement] that finds its achievement does. *)
Lemma unlockAchievement_found (env : Env) (userId : Z) (ty : string)
    (w : World) (a : Achievement.t) (rest : list Achievement.t) :
  filter (achievementHasKey userId ty) (achievements (store w)) = a :: rest ->
  unlockAchievement env userId ty w =
    (Returned (markUnlocked (clock env (ticks w)) a),
     mkWorld
       (setUsers
          (setAchievements (store w)
             (sqlUpdate (achievementHasKey userId ty)
                (markUnlocked (clock env (ticks w))) (achievements (store w))))
          (if 0 <? Achievement.xpReward a
           then sqlUpdate (userHasId userId) (awardXp (Achievement.xpReward a))
                  (users (store w))
           else users (store w)))
       (S (ticks w))).
Proof.
  intros Hf. unfold unlockAchievement, sqlReturning. run. rewrite Hf. simpl.
  destruct (0 <? Achievement.xpReward a); run; destruct w as [[] ?]; reflexivity.
Qed.

Lemma sqlUpdate_nth_error {A : Type} (p : A -> bool) (f : A -> A)
    (rows : list A) (n : nat) :
  nth_error (sqlUpdate p f rows) n =
  option_map (fun r => if p r then f r else r) (nth_error rows n).
Proof. unfold sqlUpdate. apply nth_error_map. Qed.

Lemma sqlUpdate_length {A : Type} (p : A -> bool) (f : A -> A) (rows : list A) :
  List.length (sqlUpdate p f rows) = List.length rows.
Proof. unfold sqlUpdate. apply length_map. Qed.

(** C1. [unlockAchievement] on a user with totalXp = 250 and an achievement
    with xpReward = 100 leaves totalXp = 350 but level = 3: the level is
    computed from the totalXp of before the increment, floor(250/100)+1,
    and so differs from floor(totalXp/100)+1 = 4 of the stored totalXp.
    The other user is untouched. *)
Theorem unlockAchievement_250_plus_100_level_3 :
  let w' := snd (unlockAchievement utcEnv 1 "number_master"
                   (worldWithAchievement false)) in
  map (fun u => (User.id u, User.totalXp u, User.level u)) (users (store w'))
    = [(1, 350, 3); (2, 40, 1)]
  /\ map (fun u => (User.id u, User.totalXp u / 100 + 1)) (users (store w'))
     = [(1, 4); (2, 1)].
Proof. split; reflexivity. Qed.

(** ** The streak scan *)

Lemma getDailyActivity_run (env : Env) (userId days : Z) (w : World) :
  getDailyActivity env userId days w =
    (Returned (activityWindow env userId days w),
     mkWorld (store w) (S (ticks w))).
Proof. reflexivity. Qed.

(** After the first row the loop never writes [currentStreak] again. *)
Lemma streakLoop_current_frozen (l : list DailyActivity.t) :
  forall i c lg t, 0 < i -> fst (fst (streakLoop l i c lg t)) = c.
Proof.
  induction l as [|a l IH]; intros i c lg t Hi; simpl; [reflexivity|].
  destruct (DailyActivity.streakMaintained a).
  - destruct (Z.eqb_spec i 0); [lia|]. apply IH; lia.
  - apply IH; lia.
Qed.

(** Hence [currentStreak] is the flag of the most recent row, 0 or 1. *)
Lemma computeStreaks_current (l : list DailyActivity.t) :
  fst (computeStreaks l) =
    match l with
    | a :: _ => if DailyActivity.streakMaintained a then 1 else 0
    | [] => 0
    end.
Proof.
  unfold computeStreaks. destruct l as [|a l]; simpl; [reflexivity|].
  destruct (DailyActivity.streakMaintained a).
  - pose proof (streakLoop_current_frozen l 1 1 0 1 ltac:(lia)) as H.
    destruct (streakLoop l 1 1 0 1) as [[c lg] t]. exact H.
  - pose proof (streakLoop_current_frozen l 1 0 (Z.max 0 0) 0 ltac:(lia)) as H.
    destruct (streakLoop l 1 0 (Z.max 0 0) 0) as [[c lg] t]. exact H.
Qed.

(** The scan reads nothing of a row but its flag. *)
Lemma streakLoop_flags (l1 : list DailyActivity.t) :
  forall l2 i c lg t,
    map DailyActivity.streakMaintained l1
      = map DailyActivity.streakMaintained l2 ->
    streakLoop l1 i c lg t = streakLoop l2 i c lg t.
Proof.
  induction l1 as [|a l1 IH]; intros [|b l2] i c lg t H; simpl in H;
    try discriminate; [reflexivity|].
  injection H as Hab Hl. simpl. rewrite Hab.
  destruct (DailyActivity.streakMaintained b); apply IH; assumption.
Qed.

Lemma computeStreaks_flags (l1 l2 : list DailyActivity.t) :
  map DailyActivity.streakMaintained l1
    = map DailyActivity.streakMaintained l2 ->
  computeStreaks l1 = computeStreaks l2.
Proof.
  intros H. unfold computeStreaks. rewrite (streakLoop_flags l1 l2); auto.
Qed.

(** What [updateUserStreak] does to the world. *)
Lemma updateUserStreak_run (env : Env) (userId : Z) (w : World) :
  updateUserStreak env userId w =
    (Returned tt,
     mkWorld
       (setUsers (store w)
          (sqlUpdate (userHasId userId)
             (applyPartialUser
                (streakFields
                   (fst (computeStreaks (activityWindow env userId 30 w)))
                   (snd (computeStreaks (activityWindow env userId 30 w)))
                   (clock env (S (ticks w)))
                   (clock env (S (S (ticks w))))))
             (users (store w))))
       (S (S (S (ticks w))))).
Proof. reflexivity. Qed.

(** C2. On maintained flags [true, true, false, true] (most recent first)
    [updateUserStreak] writes currentStreak = 1, not 2, and
    longestStreak = 2: the counter is copied to [currentStreak] at loop
    index 0 only.  The other user is untouched. *)
Theorem updateUserStreak_true_true_false_true :
  let w := worldWithFlags true true false true in
  map DailyActivity.streakMaintained (activityWindow utcEnv 1 30 w)
    = [true; true; false; true]
  /\ map (fun u => (User.id u, User.currentStreak u, User.longestStreak u))
       (users (store (snd (updateUserStreak utcEnv 1 w))))
     = [(1, 1, 2); (2, 0, 0)].
Proof. split; reflexivity. Qed.

(** C3. When the daily-activity rows [updateUserStreak] reads carry the
    maintained flags [false, true, true, true] (most recent first), the call
    returns and rewrites exactly the user rows with that id, setting
    currentStreak = 0 and longestStreak = 3 (with lastActiveDate and
    updatedAt stamped from the clock). *)
Theorem updateUserStreak_false_true_true_true
    (env : Env) (userId : Z) (w : World) (acts : list DailyActivity.t) :
  fst (getDailyActivity env userId 30 w) = Returned acts ->
  map DailyActivity.streakMaintained acts = [false; true; true; true] ->
  fst (updateUserStreak env userId w) = Returned tt
  /\ users (store (snd (updateUserStreak env userId w)))
     = sqlUpdate (userHasId userId)
         (applyPartialUser
            (streakFields 0 3 (clock env (S (ticks w)))
               (clock env (S (S (ticks w))))))
         (users (store w))
  /\ forall u', In u' (users (store (snd (updateUserStreak env userId w)))) ->
       User.id u' = userId ->
       User.currentStreak u' = 0 /\ User.longestStreak u' = 3.
Proof.
  intros Hget Hflags. rewrite getDailyActivity_run in Hget. simpl in Hget.
  injection Hget as Hacts.
  assert (Hs : computeStreaks (activityWindow env userId 30 w) = (0, 3)).
  { rewrite Hacts.
    rewrite (computeStreaks_flags acts
               [activityOn 0 0 false; activityOn 0 0 true;
                activityOn 0 0 true; activityOn 0 0 true]) by exact Hflags.
    reflexivity. }
  rewrite updateUserStreak_run. simpl. rewrite Hs. simpl.
  split; [reflexivity|]. split; [reflexivity|].
  intros u' Hin Hid. unfold sqlUpdate in Hin. apply in_map_iff in Hin.
  destruct Hin as [u [Hu _]]. unfold userHasId in Hu.
  destruct (Z.eqb_spec (User.id u) userId) as [E|E].
  - subst u'. split; reflexivity.
  - subst u'. contradiction.
Qed.

Lemma updateUserStreak_false_true_true_true_witness :
  map DailyActivity.streakMaintained
    (activityWindow utcEnv 1 30 (worldWithFlags false true true true))
  = [false; true; true; true]
  /\ map (fun u => (User.id u, User.currentStreak u, User.longestStreak u))
       (users (store (snd (updateUserStreak utcEnv 1
                             (worldWithFlags false true true true)))))
     = [(1, 0, 3); (2, 0, 0)].
Proof.
  split; [reflexivity|].
  destruct (updateUserStreak_false_true_true_true utcEnv 1
              (worldWithFlags false true true true)
              (activityWindow utcEnv 1 30 (worldWithFlags false true true true))
              eq_refl eq_refl) as [_ [H _]].
  rewrite H. reflexivity.
Defined.

(** ** Unlocking twice *)

(** C8, as the claim has it, fails: [unlockAchievement] on the seeded
    achievement of user 1 (xpReward = 100) unlocks it and raises totalXp from
    250 to 350; a second call, on the now unlocked achievement, raises it
    again, to 450. *)
Lemma unlockAchievement_second_call_awards_again :
  let w1 := snd (unlockAchievement utcEnv 1 "number_master"
                   (worldWithAchievement false)) in
  let w2 := snd (unlockAchievement utcEnv 1 "number_master" w1) in
  map Achievement.unlocked
    (filter (achievementHasKey 1 "number_master") (achievements (store w1)))
    = [true]
  /\ map User.totalXp (users (store w1)) = [350; 40]
  /\ map User.totalXp (users (store w2)) = [450; 40]
  /\ map User.totalXp (users (store w2)) <> map User.totalXp (users (store w1)).
Proof. repeat split; try reflexivity. discriminate. Qed.

(** C8, amended.  [unlockAchievement] never reads the [unlocked] flag: called
    on an achievement that is already unlocked and has xpReward > 0, it
    returns and adds xpReward to the totalXp of every user row with that id,
    as on the first call. *)
Theorem unlockAchievement_unlocked_awards_again
    (env : Env) (userId : Z) (ty : string) (w : World)
    (a : Achievement.t) (rest : list Achievement.t) :
  filter (achievementHasKey userId ty) (achievements (store w)) = a :: rest ->
  Achievement.unlocked a = true ->
  0 < Achievement.xpReward a ->
  fst (unlockAchievement env userId ty w)
    = Returned (markUnlocked (clock env (ticks w)) a)
  /\ users (store (snd (unlockAchievement env userId ty w)))
     = sqlUpdate (userHasId userId) (awardXp (Achievement.xpReward a))
         (users (store w))
  /\ forall n u,
       nth_error (users (store w)) n = Some u ->
       User.id u = userId ->
       exists u',
         nth_error (users (store (snd (unlockAchievement env userId ty w)))) n
           = Some u'
         /\ User.totalXp u' = User.totalXp u + Achievement.xpReward a.
Proof.
  intros Hf _ Hr. rewrite (unlockAchievement_found env userId ty w a rest Hf).
  simpl. apply Z.ltb_lt in Hr. rewrite Hr.
  split; [reflexivity|]. split; [reflexivity|].
  intros n u Hn Hid. exists (awardXp (Achievement.xpReward a) u).
  rewrite sqlUpdate_nth_error, Hn. simpl. unfold userHasId.
  rewrite (proj2 (Z.eqb_eq _ _) Hid). split; reflexivity.
Qed.

Lemma unlockAchievement_unlocked_awards_again_witness :
  (filter (achievementHasKey 1 "number_master")
     (achievements (store (worldWithAchievement true)))
   = [numberMaster 1 1 true]
   /\ Achievement.unlocked (numberMaster 1 1 true) = true
   /\ 0 < Achievement.xpReward (numberMaster 1 1 true))
  /\ map User.totalXp
       (users (store (snd (unlockAchievement utcEnv 1 "number_master"
                             (worldWithAchievement true)))))
     = [350; 40].
Proof.
  split; [repeat split; reflexivity|].
  destruct (unlockAchievement_unlocked_awards_again utcEnv 1 "number_master"
              (worldWithAchievement true) (numberMaster 1 1 true) []
              eq_refl eq_refl eq_refl) as [_ [H _]].
  rewrite H. reflexivity.
Defined.

(** ** Practice questions *)

(** C10. [getPracticeQuestions] with difficulty 0 applies no difficulty
    filter: it returns every question of the topic, exactly as the call with
    the difficulty omitted, and leaves the world alone. *)
Theorem getPracticeQuestions_difficulty_zero (topicId : string) (w : World) :
  getPracticeQuestions topicId (Some 0) w = getPracticeQuestions topicId None w
  /\ getPracticeQuestions topicId (Some 0) w
     = (Returned
          (filter (questionOfTopic topicId) (practiceQuestions (store w))),
        w).
Proof. split; reflexivity. Qed.

(** ** Daily activity *)


Lemma updateDailyActivity_existing_run (env : Env) (userId : Z)
    (activity : PartialInsertDailyActivity.t) (w : World)
    (e : DailyActivity.t) (rest : list DailyActivity.t) :
  rowsOfToday env userId w = e :: rest ->
  updateDailyActivity env userId activity w =
    (Returned
       (hd_error
          (sqlReturning (activityHasId (DailyActivity.id e))
             (accumulate activity) (dailyActivity (store w)))),
     mkWorld
       (setDailyActivity (store w)
          (sqlUpdate (activityHasId (DailyActivity.id e))
             (accumulate activity) (dailyActivity (store w)))
          (dailyActivitySeq (store w)))
       (S (ticks w))).
Proof.
  unfold rowsOfToday, todayOf. intros H. unfold updateDailyActivity. run.
  rewrite H. reflexivity.
Qed.

Lemma updateDailyActivity_absent_run (env : Env) (userId : Z)
    (activity : PartialInsertDailyActivity.t) (w : World) :
  rowsOfToday env userId w = [] ->
  updateDailyActivity env userId activity w =
    (Returned
       (Some (firstOfDay (dailyActivitySeq (store w)) userId (todayOf env w)
                activity)),
     snd (updateUserStreak env userId (afterFirstOfDay env userId activity w))).
Proof.
  unfold rowsOfToday, todayOf. intros H. unfold updateDailyActivity. run.
  rewrite H. reflexivity.
Qed.

(** C9. A call of [updateDailyActivity] that finds a row for (userId, today)
    leaves the whole users table as it is, so currentStreak, longestStreak
    and lastActiveDate of every user are unchanged; a call that finds none
    ends in the world [updateUserStreak] produces from the world with the
    inserted row, where the user rows with that id are rewritten. *)
Theorem updateDailyActivity_streak_only_on_insert (env : Env) (userId : Z)
    (activity : PartialInsertDailyActivity.t) (w : World) :
  (rowsOfToday env userId w <> [] ->
   users (store (snd (updateDailyActivity env userId activity w)))
     = users (store w))
  /\ (rowsOfToday env userId w = [] ->
      snd (updateDailyActivity env userId activity w)
        = snd (updateUserStreak env userId
                 (afterFirstOfDay env userId activity w))
      /\ exists current longest lastActive stamp,
           users (store (snd (updateDailyActivity env userId activity w)))
             = sqlUpdate (userHasId userId)
                 (applyPartialUser
                    (streakFields current longest lastActive stamp))
                 (users (store w))).
Proof.
  split.
  - intros H. destruct (rowsOfToday env userId w) as [|e rest] eqn:E;
      [contradiction|].
    rewrite (updateDailyActivity_existing_run env userId activity w e rest E).
    reflexivity.
  - intros H. rewrite (updateDailyActivity_absent_run env userId activity w H).
    split; [reflexivity|]. rewrite updateUserStreak_run. simpl.
    do 4 eexists. reflexivity.
Qed.

Lemma updateDailyActivity_streak_only_on_insert_witness :
  (rowsOfToday utcEnv 1 worldWithToday <> []
   /\ map (fun u => (User.currentStreak u, User.longestStreak u,
                     User.lastActiveDate u))
        (users (store (snd (updateDailyActivity utcEnv 1 (answered 5)
                              worldWithToday))))
      = [(0, 0, None); (0, 0, None)])
  /\ (rowsOfToday utcEnv 1 worldWithoutToday = []
      /\ map (fun u => (User.currentStreak u, User.longestStreak u,
                        User.lastActiveDate u))
           (users (store (snd (updateDailyActivity utcEnv 1 (answered 5)
                                 worldWithoutToday))))
         = [(1, 2, Some 907202000); (0, 0, None)]).
Proof.
  split.
  - assert (H : rowsOfToday utcEnv 1 worldWithToday <> []) by discriminate.
    split; [exact H|].
    rewrite (proj1 (updateDailyActivity_streak_only_on_insert utcEnv 1
                      (answered 5) worldWithToday) H).
    reflexivity.
  - split; [reflexivity|].
    rewrite (proj1 (proj2 (updateDailyActivity_streak_only_on_insert utcEnv 1
                             (answered 5) worldWithoutToday) eq_refl)).
    reflexivity.
Defined.

Lemma filter_sqlUpdate {A : Type} (p q : A -> bool) (f : A -> A)
    (rows : list A) :
  (forall r, p (f r) = p r) ->
  filter p (sqlUpdate q f rows) = sqlUpdate q f (filter p rows).
Proof.
  intros Hp. unfold sqlUpdate.
  induction rows as [|r rows IH]; simpl; [reflexivity|].
  assert (E : p (if q r then f r else r) = p r) by (destruct (q r); auto).
  rewrite E. destruct (p r); simpl; rewrite IH; reflexivity.
Qed.

Lemma sqlUpdate_untouched {A : Type} (q : A -> bool) (f : A -> A)
    (rows : list A) :
  Forall (fun r => q r = false) rows -> sqlUpdate q f rows = rows.
Proof.
  unfold sqlUpdate. induction 1 as [|r rows Hr _ IH]; simpl; [reflexivity|].
  rewrite Hr, IH. reflexivity.
Qed.

(** A selection of rows inherits the primary key. *)
Lemma ids_unique_in_selection (sel : DailyActivity.t -> bool)
    (rows : list DailyActivity.t) :
  NoDup (map DailyActivity.id rows) ->
  NoDup (map DailyActivity.id (filter sel rows)).
Proof.
  induction rows as [|r rows IH]; simpl; intros Hnd; [constructor|].
  apply NoDup_cons_iff in Hnd. destruct Hnd as [Hfresh Hnd].
  destruct (sel r); simpl; [|exact (IH Hnd)].
  apply NoDup_cons; [|exact (IH Hnd)].
  rewrite in_map_iff. intros [r' [Hid Hr']].
  apply filter_In in Hr'. apply Hfresh. rewrite <- Hid.
  apply in_map. tauto.
Qed.

Lemma activityOfDay_accumulate (userId today : Z)
    (activity : PartialInsertDailyActivity.t) (r : DailyActivity.t) :
  activityOfDay userId today (accumulate activity r)
    = activityOfDay userId today r.
Proof. reflexivity. Qed.

(** Under the primary key, the row the update addresses by id is the row the
    select found. *)
Lemma filter_by_id_unique (rows : list DailyActivity.t) (e : DailyActivity.t) :
  NoDup (map DailyActivity.id rows) ->
  In e rows ->
  filter (activityHasId (DailyActivity.id e)) rows = [e].
Proof.
  unfold activityHasId.
  induction rows as [|r rows IH]; simpl; intros Hnd Hin; [contradiction|].
  inversion Hnd as [|? ? Hnin Hnd']; subst.
  destruct Hin as [->|Hin].
  - rewrite Z.eqb_refl. f_equal.
    assert (H : Forall (fun r => (DailyActivity.id r =? DailyActivity.id e) = false) rows).
    { apply Forall_forall. intros r Hr. apply Z.eqb_neq. intros E.
      apply Hnin. rewrite <- E. apply in_map. exact Hr. }
    clear -H. induction H as [|r rows Hr _ IH]; simpl; [reflexivity|].
    rewrite Hr. exact IH.
  - destruct (Z.eqb_spec (DailyActivity.id r) (DailyActivity.id e)) as [E|E].
    + exfalso. apply Hnin. rewrite E. apply in_map. exact Hin.
    + apply IH; assumption.
Qed.

(** The existing-row branch keeps the primary key and issues no id. *)
Lemma updateDailyActivity_existing_keeps_ids (env : Env) (userId : Z)
    (activity : PartialInsertDailyActivity.t) (w : World)
    (e : DailyActivity.t) (rest : list DailyActivity.t) :
  rowsOfToday env userId w = e :: rest ->
  map DailyActivity.id
    (dailyActivity (store (snd (updateDailyActivity env userId activity w))))
  = map DailyActivity.id (dailyActivity (store w)).
Proof.
  intros H. rewrite (updateDailyActivity_existing_run _ _ _ _ _ _ H). simpl.
  unfold sqlUpdate. rewrite map_map. apply map_ext. intros r.
  destruct (activityHasId (DailyActivity.id e) r); reflexivity.
Qed.

(** The insert branch keeps the primary key: the new id is fresh. *)
Lemma updateDailyActivity_insert_keeps_key (env : Env) (userId : Z)
    (activity : PartialInsertDailyActivity.t) (w : World) :
  rowsOfToday env userId w = [] ->
  dailyActivityIdsUnique (store w) ->
  dailyActivityIdsIssued (store w) ->
  dailyActivityIdsUnique
    (store (snd (updateDailyActivity env userId activity w)))
  /\ dailyActivityIdsIssued
       (store (snd (updateDailyActivity env userId activity w))).
Proof.
  unfold dailyActivityIdsUnique, dailyActivityIdsIssued.
  intros H Hnd Hlt. rewrite (updateDailyActivity_absent_run _ _ _ _ H).
  rewrite updateUserStreak_run. simpl. split.
  - rewrite map_app. simpl.
    apply NoDup_rev in Hnd. rewrite <- (rev_involutive (_ ++ _)).
    apply NoDup_rev. rewrite rev_app_distr. simpl. constructor; [|exact Hnd].
    rewrite <- in_rev. intros Hin. apply in_map_iff in Hin.
    destruct Hin as [r [Hid Hr]].
    rewrite Forall_forall in Hlt. specialize (Hlt r Hr). lia.
  - apply Forall_app. split.
    + eapply Forall_impl; [|exact Hlt]. simpl. intros; lia.
    + constructor; [simpl; lia|constructor].
Qed.

(** C6. When a row [e] exists for (userId, today), [updateDailyActivity]
    inserts nothing: it returns [e] with questionsAnswered, timeSpent and
    xpEarned raised by the given deltas (an absent delta counts 0) and
    streakMaintained = true, and the rows of that user and day are the same
    rows with [e] so replaced; a single row stays a single row.  Two
    same-day calls on a user with no row yet leave exactly one row, whose
    questionsAnswered is the sum of the two deltas: 8 for 5 then 3. *)
Theorem updateDailyActivity_accumulates (env : Env) (userId : Z) (w : World) :
  (forall activity e rest,
      rowsOfToday env userId w = e :: rest ->
      dailyActivityIdsUnique (store w) ->
      let w' := snd (updateDailyActivity env userId activity w) in
      fst (updateDailyActivity env userId activity w)
        = Returned (Some (accumulate activity e))
      /\ filter (activityOfDay userId (todayOf env w)) (dailyActivity (store w'))
         = accumulate activity e :: rest
      /\ List.length (dailyActivity (store w'))
         = List.length (dailyActivity (store w))
      /\ DailyActivity.questionsAnswered (accumulate activity e)
         = DailyActivity.questionsAnswered e
           + orZero (PartialInsertDailyActivity.questionsAnswered activity)
      /\ DailyActivity.timeSpent (accumulate activity e)
         = DailyActivity.timeSpent e
           + orZero (PartialInsertDailyActivity.timeSpent activity)
      /\ DailyActivity.xpEarned (accumulate activity e)
         = DailyActivity.xpEarned e
           + orZero (PartialInsertDailyActivity.xpEarned activity)
      /\ DailyActivity.streakMaintained (accumulate activity e) = true)
  /\ (forall first second,
        rowsOfToday env userId w = [] ->
        let w1 := snd (updateDailyActivity env userId first w) in
        let w2 := snd (updateDailyActivity env userId second w1) in
        todayOf env w1 = todayOf env w ->
        exists row,
          filter (activityOfDay userId (todayOf env w))
            (dailyActivity (store w2)) = [row]
          /\ DailyActivity.questionsAnswered row
             = orZero (PartialInsertDailyActivity.questionsAnswered first)
               + orZero (PartialInsertDailyActivity.questionsAnswered second)
          /\ (PartialInsertDailyActivity.questionsAnswered first = Some 5 ->
              PartialInsertDailyActivity.questionsAnswered second = Some 3 ->
              DailyActivity.questionsAnswered row = 8)).
Proof.
  split.
  - intros activity e rest He Hnd w'. subst w'.
    rewrite (updateDailyActivity_existing_run _ _ _ _ _ _ He). simpl.
    assert (Hin : In e (dailyActivity (store w))).
    { assert (Hin : In e (rowsOfToday env userId w))
        by (rewrite He; left; reflexivity).
      unfold rowsOfToday in Hin. apply filter_In in Hin. tauto. }
    split; [|split; [|split; [|repeat split]]].
    + unfold sqlReturning. rewrite (filter_by_id_unique _ e Hnd Hin).
      reflexivity.
    + rewrite filter_sqlUpdate by (intros; apply activityOfDay_accumulate).
      fold (rowsOfToday env userId w). rewrite He.
      unfold sqlUpdate at 1. simpl. unfold activityHasId at 1.
      rewrite Z.eqb_refl. f_equal.
      fold (sqlUpdate (activityHasId (DailyActivity.id e))
              (accumulate activity) rest).
      apply sqlUpdate_untouched.
      pose proof (ids_unique_in_selection
                    (activityOfDay userId (todayOf env w)) _ Hnd) as Hnd'.
      fold (rowsOfToday env userId w) in Hnd'. rewrite He in Hnd'.
      simpl in Hnd'. inversion Hnd' as [|? ? Hnin _]; subst.
      apply Forall_forall. intros r Hr. unfold activityHasId.
      apply Z.eqb_neq. intros E. apply Hnin. rewrite <- E.
      apply in_map. exact Hr.
    + apply sqlUpdate_length.
  - intros first second H0 w1 w2 Hday.
    set (new := firstOfDay (dailyActivitySeq (store w)) userId (todayOf env w)
                  first).
    assert (Hrows1 : dailyActivity (store w1) = dailyActivity (store w) ++ [new]).
    { subst w1. rewrite (updateDailyActivity_absent_run _ _ _ _ H0).
      rewrite updateUserStreak_run. reflexivity. }
    assert (Hnew : activityOfDay userId (todayOf env w) new = true).
    { unfold activityOfDay, new. simpl. rewrite !Z.eqb_refl. reflexivity. }
    assert (Htoday1 : rowsOfToday env userId w1 = [new]).
    { unfold rowsOfToday. rewrite Hday, Hrows1, filter_app.
      fold (rowsOfToday env userId w). rewrite H0. simpl.
      rewrite Hnew. reflexivity. }
    exists (accumulate second new).
    assert (Hrows2 :
      filter (activityOfDay userId (todayOf env w)) (dailyActivity (store w2))
        = [accumulate second new]).
    { subst w2.
      rewrite (updateDailyActivity_existing_run _ _ _ _ _ _ Htoday1). simpl.
      rewrite filter_sqlUpdate by (intros; apply activityOfDay_accumulate).
      rewrite <- Hday. fold (rowsOfToday env userId w1). rewrite Htoday1.
      unfold sqlUpdate. simpl. unfold activityHasId. rewrite Z.eqb_refl.
      reflexivity. }
    split; [exact Hrows2|]. split; [reflexivity|].
    intros E1 E2. simpl. rewrite E1, E2. reflexivity.
Qed.

Lemma updateDailyActivity_accumulates_witness :
  (rowsOfToday utcEnv 1 worldWithToday = [activityOn 1 10 false]
   /\ dailyActivityIdsUnique (store worldWithToday)
   /\ fst (updateDailyActivity utcEnv 1 (answered 5) worldWithToday)
      = Returned (Some (DailyActivity.mk 1001 1 (10 * msPerDay) 9 10 50 true)))
  /\ (rowsOfToday utcEnv 1 worldWithoutToday = []
      /\ todayOf utcEnv
           (snd (updateDailyActivity utcEnv 1 (answered 5) worldWithoutToday))
         = todayOf utcEnv worldWithoutToday
      /\ map DailyActivity.questionsAnswered
           (filter (activityOfDay 1 (todayOf utcEnv worldWithoutToday))
              (dailyActivity
                 (store
                    (snd (updateDailyActivity utcEnv 1 (answered 3)
                            (snd (updateDailyActivity utcEnv 1 (answered 5)
                                    worldWithoutToday)))))))
         = [8]).
Proof.
  assert (Hnd : dailyActivityIdsUnique (store worldWithToday)).
  { unfold dailyActivityIdsUnique. simpl.
    repeat (constructor; [simpl; intuition discriminate|]). constructor. }
  split.
  - split; [reflexivity|]. split; [exact Hnd|].
    destruct (proj1 (updateDailyActivity_accumulates utcEnv 1 worldWithToday)
                (answered 5) (activityOn 1 10 false) [] eq_refl Hnd)
      as [H _].
    rewrite H. reflexivity.
  - split; [reflexivity|]. split; [reflexivity|].
    destruct (proj2 (updateDailyActivity_accumulates utcEnv 1 worldWithoutToday)
                (answered 5) (answered 3) eq_refl eq_refl)
      as [row [Hrow [_ H8]]].
    rewrite Hrow. simpl. rewrite (H8 eq_refl eq_refl). reflexivity.
Defined.

(** ** Course progress *)

Lemma updateCourseProgress_insert_run (env : Env) (userId : Z)
    (topicId : string) (updates : PartialInsertCourseProgress.t) (w : World) :
  filter (progressHasKey userId topicId) (courseProgress (store w)) = [] ->
  updateCourseProgress env userId topicId updates w =
    (Returned
       (Some (insertedCourseProgress (courseProgressSeq (store w))
                (courseProgressDefaults env (ticks w))
                (keyedThenSpread userId topicId updates))),
     mkWorld
       (setCourseProgress (store w)
          (courseProgress (store w)
             ++ [insertedCourseProgress (courseProgressSeq (store w))
                   (courseProgressDefaults env (ticks w))
                   (keyedThenSpread userId topicId updates)])
          (courseProgressSeq (store w) + 1))
       (ticks w)).
Proof.
  intros H. unfold updateCourseProgress. run. rewrite H. reflexivity.
Qed.

Lemma updateCourseProgress_update_run (env : Env) (userId : Z)
    (topicId : string) (updates : PartialInsertCourseProgress.t) (w : World)
    (e : CourseProgress.t) (rest : list CourseProgress.t) :
  filter (progressHasKey userId topicId) (courseProgress (store w))
    = e :: rest ->
  updateCourseProgress env userId topicId updates w =
    (Returned
       (hd_error
          (sqlReturning (progressHasKey userId topicId)
             (applyPartialCourseProgress
                (withLastAccessed updates (clock env (ticks w))))
             (courseProgress (store w)))),
     mkWorld
       (setCourseProgress (store w)
          (sqlUpdate (progressHasKey userId topicId)
             (applyPartialCourseProgress
                (withLastAccessed updates (clock env (ticks w))))
             (courseProgress (store w)))
          (courseProgressSeq (store w)))
       (S (ticks w))).
Proof.
  intros H. unfold updateCourseProgress. run. rewrite H. reflexivity.
Qed.

Lemma filter_nil_untouched {A : Type} (q : A -> bool) (rows : list A) :
  filter q rows = [] -> Forall (fun r => q r = false) rows.
Proof.
  induction rows as [|r rows IH]; simpl; intros H; [constructor|].
  destruct (q r) eqn:E; [discriminate|]. constructor; auto.
Qed.

(** C7, as the claim has it, fails: [updates] is spread after [userId] and
    [topicId] in the inserted values, so an update object that names a topic
    of its own is stored under that topic.  Two calls for (1, algebra) with
    [{ topicId: geometry, score: 80 }] on an empty table both insert: no row
    exists for (1, algebra) afterwards and two exist for (1, geometry). *)
Lemma updateCourseProgress_twice_inserts_twice :
  let w1 := snd (updateCourseProgress utcEnv 1 "algebra"
                   (scoreForTopic "geometry" 80) worldWithUsers) in
  let w2 := snd (updateCourseProgress utcEnv 1 "algebra"
                   (scoreForTopic "geometry" 80) w1) in
  filter (progressHasKey 1 "algebra") (courseProgress (store worldWithUsers))
    = []
  /\ List.length
       (filter (progressHasKey 1 "algebra") (courseProgress (store w2)))
     = 0%nat
  /\ map (fun p => (CourseProgress.id p, CourseProgress.userId p,
                    CourseProgress.topicId p))
       (courseProgress (store w2))
     = [(1, 1, "geometry"); (2, 1, "geometry")].
Proof. repeat split; reflexivity. Qed.

(** C7, amended.  With no row for (userId, topicId) and update objects that
    carry no userId or topicId other than those of the call, two calls of
    [updateCourseProgress] in sequence insert on the first and update that
    row in place on the second: exactly one row exists for (userId, topicId)
    afterwards, under the id of the insert, with the fields of the second
    call merged over it and lastAccessed read from the clock. *)
Theorem updateCourseProgress_twice_one_row (env : Env) (userId : Z)
    (topicId : string) (first second : PartialInsertCourseProgress.t)
    (w : World) :
  filter (progressHasKey userId topicId) (courseProgress (store w)) = [] ->
  spread (PartialInsertCourseProgress.userId first) userId = userId ->
  spread (PartialInsertCourseProgress.topicId first) topicId = topicId ->
  spread (PartialInsertCourseProgress.userId second) userId = userId ->
  spread (PartialInsertCourseProgress.topicId second) topicId = topicId ->
  let r1 := updateCourseProgress env userId topicId first w in
  let r2 := updateCourseProgress env userId topicId second (snd r1) in
  exists inserted updated,
    fst r1 = Returned (Some inserted)
    /\ courseProgress (store (snd r1)) = courseProgress (store w) ++ [inserted]
    /\ fst r2 = Returned (Some updated)
    /\ courseProgress (store (snd r2)) = courseProgress (store w) ++ [updated]
    /\ filter (progressHasKey userId topicId) (courseProgress (store (snd r2)))
       = [updated]
    /\ updated
       = applyPartialCourseProgress
           (withLastAccessed second (clock env (ticks w))) inserted
    /\ CourseProgress.id updated = CourseProgress.id inserted
    /\ CourseProgress.lastAccessed updated = clock env (ticks w)
    /\ CourseProgress.score updated
       = spread (PartialInsertCourseProgress.score second)
           (CourseProgress.score inserted)
    /\ CourseProgress.completed updated
       = spread (PartialInsertCourseProgress.completed second)
           (CourseProgress.completed inserted).
Proof.
  intros Hnone Hu1 Ht1 Hu2 Ht2 r1 r2.
  set (inserted := insertedCourseProgress (courseProgressSeq (store w))
                     (courseProgressDefaults env (ticks w))
                     (keyedThenSpread userId topicId first)).
  set (set2 := applyPartialCourseProgress
                 (withLastAccessed second (clock env (ticks w)))).
  assert (E1 : r1 = (Returned (Some inserted),
                     mkWorld
                       (setCourseProgress (store w)
                          (courseProgress (store w) ++ [inserted])
                          (courseProgressSeq (store w) + 1))
                       (ticks w)))
    by (apply updateCourseProgress_insert_run; exact Hnone).
  assert (Hkey : progressHasKey userId topicId inserted = true).
  { unfold progressHasKey, inserted. simpl. rewrite Hu1, Ht1.
    rewrite Z.eqb_refl, String.eqb_refl. reflexivity. }
  assert (Hkey2 : progressHasKey userId topicId (set2 inserted) = true).
  { unfold progressHasKey, set2, inserted. simpl. rewrite Hu1, Ht1, Hu2, Ht2.
    rewrite Z.eqb_refl, String.eqb_refl. reflexivity. }
  assert (Hf1 : filter (progressHasKey userId topicId)
                  (courseProgress (store (snd r1))) = [inserted]).
  { rewrite E1. simpl. rewrite filter_app, Hnone. simpl. rewrite Hkey.
    reflexivity. }
  assert (E2 : r2 = (Returned
                       (hd_error
                          (sqlReturning (progressHasKey userId topicId) set2
                             (courseProgress (store (snd r1))))),
                     mkWorld
                       (setCourseProgress (store (snd r1))
                          (sqlUpdate (progressHasKey userId topicId) set2
                             (courseProgress (store (snd r1))))
                          (courseProgressSeq (store (snd r1))))
                       (S (ticks (snd r1))))).
  { unfold r2. rewrite (updateCourseProgress_update_run _ _ _ _ _ _ _ Hf1).
    rewrite E1. reflexivity. }
  assert (Hrows2 : courseProgress (store (snd r2))
                   = courseProgress (store w) ++ [set2 inserted]).
  { rewrite E2. simpl. rewrite E1. simpl. unfold sqlUpdate.
    rewrite map_app. simpl. rewrite Hkey. f_equal.
    apply (sqlUpdate_untouched (progressHasKey userId topicId) set2).
    apply filter_nil_untouched. exact Hnone. }
  exists inserted, (set2 inserted).
  split; [rewrite E1; reflexivity|].
  split; [rewrite E1; reflexivity|].
  split; [rewrite E2; simpl; unfold sqlReturning; rewrite Hf1; reflexivity|].
  split; [exact Hrows2|].
  split; [rewrite Hrows2, filter_app, Hnone; simpl; rewrite Hkey2; reflexivity|].
  repeat split; reflexivity.
Qed.

Lemma updateCourseProgress_twice_one_row_witness :
  (filter (progressHasKey 1 "algebra") (courseProgress (store worldWithUsers))
     = []
   /\ spread (PartialInsertCourseProgress.userId (scoreOnly 80)) 1 = 1
   /\ spread (PartialInsertCourseProgress.topicId (scoreOnly 80)) "algebra"
      = "algebra")
  /\ List.length
       (filter (progressHasKey 1 "algebra")
          (courseProgress
             (store
                (snd (updateCourseProgress utcEnv 1 "algebra" (scoreOnly 80)
                        (snd (updateCourseProgress utcEnv 1 "algebra"
                                (scoreOnly 80) worldWithUsers)))))))
     = 1%nat.
Proof.
  split; [repeat split; reflexivity|].
  destruct (updateCourseProgress_twice_one_row utcEnv 1 "algebra"
              (scoreOnly 80) (scoreOnly 80) worldWithUsers
              eq_refl eq_refl eq_refl eq_refl eq_refl)
    as [inserted [updated [_ [_ [_ [_ [H _]]]]]]].
  rewrite H. reflexivity.
Defined.

(** ** Saving a quiz attempt *)

Lemma updateCourseProgress_total (env : Env) (userId : Z) (topicId : string)
    (updates : PartialInsertCourseProgress.t) (w : World) :
  exists v, fst (updateCourseProgress env userId topicId updates w) = Returned v.
Proof.
  destruct (filter (progressHasKey userId topicId) (courseProgress (store w)))
    as [|e rest] eqn:E.
  - rewrite (updateCourseProgress_insert_run _ _ _ _ _ E). eexists; reflexivity.
  - rewrite (updateCourseProgress_update_run _ _ _ _ _ _ _ E).
    eexists; reflexivity.
Qed.

Lemma updateDailyActivity_total (env : Env) (userId : Z)
    (activity : PartialInsertDailyActivity.t) (w : World) :
  exists v, fst (updateDailyActivity env userId activity w) = Returned v.
Proof.
  destruct (rowsOfToday env userId w) as [|e rest] eqn:E.
  - rewrite (updateDailyActivity_absent_run _ _ _ _ E). eexists; reflexivity.
  - rewrite (updateDailyActivity_existing_run _ _ _ _ _ _ E).
    eexists; reflexivity.
Qed.

(** [updateCourseProgress] writes to the course-progress table only. *)
Lemma updateCourseProgress_frame (env : Env) (userId : Z) (topicId : string)
    (updates : PartialInsertCourseProgress.t) (w : World) :
  let w' := snd (updateCourseProgress env userId topicId updates w) in
  users (store w') = users (store w)
  /\ quizAttempts (store w') = quizAttempts (store w)
  /\ dailyActivity (store w') = dailyActivity (store w)
  /\ dailyActivitySeq (store w') = dailyActivitySeq (store w).
Proof.
  destruct (filter (progressHasKey userId topicId) (courseProgress (store w)))
    as [|e rest] eqn:E; simpl.
  - rewrite (updateCourseProgress_insert_run _ _ _ _ _ E). repeat split.
  - rewrite (updateCourseProgress_update_run _ _ _ _ _ _ _ E). repeat split.
Qed.

(** [updateDailyActivity] leaves course progress and quiz attempts alone. *)
Lemma updateDailyActivity_frame (env : Env) (userId : Z)
    (activity : PartialInsertDailyActivity.t) (w : World) :
  let w' := snd (updateDailyActivity env userId activity w) in
  courseProgress (store w') = courseProgress (store w)
  /\ quizAttempts (store w') = quizAttempts (store w).
Proof.
  destruct (rowsOfToday env userId w) as [|e rest] eqn:E; simpl.
  - rewrite (updateDailyActivity_absent_run _ _ _ _ E).
    rewrite updateUserStreak_run. repeat split.
  - rewrite (updateDailyActivity_existing_run _ _ _ _ _ _ E). repeat split.
Qed.


Lemma saveQuizAttempt_run (env : Env) (attempt : InsertQuizAttempt.t)
    (w : World) :
  saveQuizAttempt env attempt w =
    (Returned
       (insertedQuizAttempt (quizAttemptsSeq (store w))
          (completedAtDefault env (ticks w)) attempt),
     snd (updateDailyActivity env (InsertQuizAttempt.userId attempt)
            (activityOfAttempt attempt)
            (snd (updateCourseProgress env (InsertQuizAttempt.userId attempt)
                    (InsertQuizAttempt.topicId attempt)
                    (progressOfAttempt attempt)
                    (afterAttemptInsert env attempt w))))).
Proof.
  unfold saveQuizAttempt. run.
  change (mkWorld _ (ticks w)) with (afterAttemptInsert env attempt w).
  destruct (updateCourseProgress_total env (InsertQuizAttempt.userId attempt)
              (InsertQuizAttempt.topicId attempt) (progressOfAttempt attempt)
              (afterAttemptInsert env attempt w)) as [v Hv].
  destruct (updateCourseProgress _ _ _ _ _) as [o w2]. simpl in Hv. subst o.
  simpl.
  destruct (updateDailyActivity_total env (InsertQuizAttempt.userId attempt)
              (activityOfAttempt attempt) w2) as [v' Hv'].
  destruct (updateDailyActivity _ _ _ _) as [o' w3]. simpl in Hv'. subst o'.
  reflexivity.
Qed.




(** ** The dashboard grade *)

(** [roundDouble] against the IEEE 754 arithmetic of the standard library
    at binary64: decimal texts, a sum and a quotient that round, ties, the
    subnormals and the overflow. *)
Example roundDouble_agrees_with_binary64 :
  let f := floatOfZ in
  let add := SpecFloat.SFadd 53 1024 in
  let div := SpecFloat.SFdiv 53 1024 in
  let mul := SpecFloat.SFmul 53 1024 in
  let ldexp := SpecFloat.SFldexp 53 1024 in
  let d := fun n m => div (f n) (f m) in
  let plus := fun x y =>
    match x, y with
    | Some a, Some b => doubleAdd a b
    | _, _ => None
    end in
  forallb (fun c => sameNumber (fst c) (valueOfFloat (snd c)))
    [(Number (928 # 10)%Q, d 928 10);
     (Number (836 # 10), d 836 10);
     (Number (882 # 10), d 882 10);
     (Number (1 # 3), d 1 3);
     (Number (- (1 # 3)), SpecFloat.SFopp (d 1 3));
     (plus (Number (928 # 10)) (Number (836 # 10)),
      add (d 928 10) (d 836 10));
     (plus (Number (1 # 10)) (Number (2 # 10)), add (d 1 10) (d 2 10));
     (doubleMean [928 # 10; 836 # 10],
      div (add (add (f 0) (d 928 10)) (d 836 10)) (f 2));
     (doubleMean [100; 80; 61]%Q,
      div (add (add (add (f 0) (f 100)) (f 80)) (f 61)) (f 3));
     (doubleMean [100; 80; 60]%Q, f 80);
     (roundDouble (inject_Z (2 ^ 53 + 1)), add (f (2 ^ 53)) (f 1));
     (roundDouble (inject_Z (2 ^ 53 + 3)), add (f (2 ^ 53 + 2)) (f 1));
     (roundDouble (1 # Z.to_pos (2 ^ 1074)), ldexp (f 1) (-1074));
     (roundDouble (1 # Z.to_pos (2 ^ 1075)), div (ldexp (f 1) (-1074)) (f 2));
     (roundDouble (3 # Z.to_pos (2 ^ 1075)), div (ldexp (f 3) (-1074)) (f 2));
     (roundDouble (inject_Z (2 ^ 1024 - 2 ^ 970 - 1)),
      ldexp (f (2 ^ 53 - 1)) 971);
     (roundDouble (inject_Z (2 ^ 1024 - 2 ^ 970)),
      add (ldexp (f (2 ^ 53 - 1)) 971) (ldexp (f 1) 970));
     (roundDouble (inject_Z (2 ^ 1024)), mul (ldexp (f 1) 1023) (f 2))]
  = true.
Proof. vm_compute. reflexivity. Qed.

(** Rounding looks at the value of a rational, not at its fraction. *)
Lemma roundDouble_Qeq (p q : Q) : (p == q)%Q -> roundDouble p = roundDouble q.
Proof.
  intros H. unfold roundDouble. rewrite (Qred_complete p q H). reflexivity.
Qed.

Lemma representable_Qeq (p q : Q) :
  (p == q)%Q -> representable q -> exists r, roundDouble p = Some r /\ (r == q)%Q.
Proof.
  intros H [r [Hr Hq]]. exists r. rewrite (roundDouble_Qeq p q H). auto.
Qed.

(** The code's [reduce] reads nothing of a row but its score. *)
Lemma totalScore_scores (l : list CourseProgress.t) :
  totalScore l = doubleSum (map CourseProgress.score l) (Some 0%Q).
Proof.
  unfold totalScore, doubleSum. generalize (Some 0%Q).
  induction l as [|p l IH]; intros start; simpl; [reflexivity|]. apply IH.
Qed.

Lemma overallGradeOf_scores (progress : list CourseProgress.t) :
  overallGradeOf progress
  = doubleMean (map CourseProgress.score (completedCourses progress)).
Proof.
  unfold overallGradeOf, doubleMean. rewrite length_map, totalScore_scores.
  reflexivity.
Qed.

(** Where nothing rounds, the sum of the doubles is the sum. *)
Lemma doubleSum_exact (scores : list Q) :
  forall acc exact : Q,
    (acc == exact)%Q ->
    sumsRepresentable exact scores ->
    exists v, doubleSum scores (Some acc) = Some v
              /\ (v == exact + sumOf scores)%Q.
Proof.
  induction scores as [|s rest IH]; intros acc exact Hacc Hrep.
  - exists acc. split; [reflexivity|]. simpl. rewrite Hacc. ring.
  - destruct Hrep as [[x [Hx Hxs]] [Hsum Hrest]].
    assert (Hadd : (acc + x == exact + s)%Q) by (rewrite Hacc, Hxs; reflexivity).
    destruct (representable_Qeq _ _ Hadd Hsum) as [y [Hy Hys]].
    destruct (IH y (exact + s)%Q Hys Hrest) as [v [Hv Hvs]].
    exists v. split.
    + unfold doubleSum in *. cbn [fold_left].
      change (Number s) with (roundDouble s). rewrite Hx.
      change (doubleAdd acc x) with (roundDouble (acc + x)). rewrite Hy.
      exact Hv.
    + rewrite Hvs. simpl. ring.
Qed.

(** Where nothing rounds, the code's grade is the arithmetic mean. *)
Lemma doubleMean_exact (scores : list Q) :
  meanRepresentable scores ->
  exists g, doubleMean scores = Some g /\ (g == arithmeticMean scores)%Q.
Proof.
  intros [Hsums Hmean]. unfold doubleMean.
  destruct scores as [|s rest].
  - exists 0%Q. split; reflexivity.
  - replace (0 <? Z.of_nat (List.length (s :: rest))) with true
      by (symmetry; apply Z.ltb_lt; simpl; lia).
    destruct (doubleSum_exact (s :: rest) 0%Q 0%Q ltac:(reflexivity) Hsums)
      as [v [Hv Hvs]].
    rewrite Hv. unfold doubleDiv.
    apply representable_Qeq; [|exact Hmean].
    unfold arithmeticMean. rewrite Hvs. rewrite Qplus_0_l. reflexivity.
Qed.

Lemma numbersDiffer_false (x : Q) (y : option Q) :
  numbersDiffer x y = false <-> exists v, y = Some v /\ (x == v)%Q.
Proof.
  unfold numbersDiffer. destruct y as [v|].
  - rewrite negb_false_iff, Qeq_bool_iff. split.
    + intros H. exists v. auto.
    + intros [v' [E H]]. injection E as <-. exact H.
  - split; [discriminate|]. intros [v [E _]]. discriminate.
Qed.

Lemma getDashboardData_found (env : Env) (userId : Z) (w : World)
    (u : User.t) (rest : list User.t) :
  filter (userHasId userId) (users (store w)) = u :: rest ->
  getDashboardData env userId w =
    match overallGradeOf
            (filter (progressOfUser userId) (courseProgress (store w))) with
    | Some g =>
        (Returned
           (mkDashboard (withOverallGrade u g)
              (filter (progressOfUser userId) (courseProgress (store w)))
              (filter (fun a => Achievement.userId a =? userId)
                 (achievements (store w)))
              (activityWindow env userId 7 w)),
         if numbersDiffer g (Number (User.overallGrade u))
         then mkWorld
                (setUsers (store w)
                   (sqlUpdate (userHasId userId)
                      (applyPartialUser
                         (gradeFields g (clock env (S (ticks w)))))
                      (users (store w))))
                (S (S (ticks w)))
         else mkWorld (store w) (S (ticks w)))
    | None =>
        (Threw "StorageError: the decimal column cannot hold Infinity",
         mkWorld (store w) (S (ticks w)))
    end.
Proof.
  intros H. unfold getDashboardData. run. rewrite H. simpl.
  destruct (overallGradeOf _) as [g|]; [|reflexivity]. run.
  destruct (numbersDiffer g (Number (User.overallGrade u))); reflexivity.
Qed.

(** C4, as the claim has it, fails.  User 4 completed two topics with 92.8
    and 83.6 and has the stored grade 88.2, their arithmetic mean.
    [getDashboardData] adds and divides doubles: it returns the double just
    below 88.2 (printed 88.19999999999999), which is not the mean, finds it
    different from the stored grade and writes it. *)
Lemma getDashboardData_grade_is_rounded :
  let scores := map CourseProgress.score (completedOf 4 worldWithFractions) in
  let r := getDashboardData utcEnv 4 worldWithFractions in
  scores = [928 # 10; 836 # 10]%Q
  /\ (arithmeticMean scores == 882 # 10)%Q
  /\ (User.overallGrade dana == arithmeticMean scores)%Q
  /\ exists view,
       fst r = Returned view
       /\ ~ (User.overallGrade (user view) == arithmeticMean scores)%Q
       /\ (8819999999999998 # 100000000000000
           < User.overallGrade (user view))%Q
       /\ (User.overallGrade (user view) < 882 # 10)%Q
       /\ users (store (snd r)) <> users (store worldWithFractions).
Proof.
  split; [reflexivity|]. split; [reflexivity|]. split; [reflexivity|].
  eexists. split; [vm_compute; reflexivity|].
  split; [vm_compute; discriminate|].
  split; [vm_compute; reflexivity|].
  split; [vm_compute; reflexivity|].
  vm_compute. discriminate.
Qed.

(** C4, amended.  For a user that exists, [getDashboardData] computes the
    grade in double arithmetic: the scores of the user's CourseProgress rows
    with completed = true, read through [Number], are added from left to
    right starting at 0 and the sum is divided by their number; with no
    such row the grade is 0.  It is the arithmetic mean whenever no
    operation rounds, as for [100, 80, 60], which give 80.  The method
    returns the user with overallGrade set to that grade, leaves the
    database alone when the grade equals the number read from the stored
    one and otherwise writes it, through [updateUser], to the user rows of
    that id.  A grade that is no finite double is refused by the decimal
    column: the method throws and nothing is written. *)
Theorem getDashboardData_overallGrade (env : Env) (userId : Z) (w : World)
    (u : User.t) (rest : list User.t) :
  filter (userHasId userId) (users (store w)) = u :: rest ->
  let scores := map CourseProgress.score (completedOf userId w) in
  let w' := snd (getDashboardData env userId w) in
  (forall g,
      doubleMean scores = Some g ->
      exists view,
        fst (getDashboardData env userId w) = Returned view
        /\ user view = withOverallGrade u g
        /\ User.overallGrade (user view) = g
        /\ (scores = [] -> g == 0)%Q
        /\ (meanRepresentable scores -> g == arithmeticMean scores)%Q
        /\ (scores = [100; 80; 60]%Q -> g == 80)%Q
        /\ ((exists v, Number (User.overallGrade u) = Some v /\ (g == v)%Q) ->
            store w' = store w)
        /\ (~ (exists v, Number (User.overallGrade u) = Some v /\ (g == v)%Q) ->
            store w'
            = setUsers (store w)
                (sqlUpdate (userHasId userId)
                   (applyPartialUser (gradeFields g (clock env (S (ticks w)))))
                   (users (store w)))
            /\ forall u', In u' (users (store w')) -> User.id u' = userId ->
                 User.overallGrade u' = g))
  /\ (doubleMean scores = None ->
      (exists e, fst (getDashboardData env userId w) = Threw e)
      /\ store w' = store w).
Proof.
  intros Hu scores w'.
  pose proof (getDashboardData_found env userId w u rest Hu) as Hrun.
  rewrite overallGradeOf_scores in Hrun.
  change (map CourseProgress.score
            (completedCourses
               (filter (progressOfUser userId) (courseProgress (store w)))))
    with scores in Hrun.
  split.
  - intros g Hg. rewrite Hg in Hrun.
    eexists. split; [rewrite Hrun; reflexivity|].
    split; [reflexivity|]. split; [reflexivity|].
    split.
    { intros E. rewrite E in Hg. injection Hg as <-. reflexivity. }
    split.
    { intros Hrep. destruct (doubleMean_exact scores Hrep) as [g' [Hg' Hm]].
      rewrite Hg in Hg'. injection Hg' as <-. exact Hm. }
    split.
    { intros E. rewrite E in Hg. vm_compute in Hg. injection Hg as <-.
      reflexivity. }
    split.
    + intros Hsame. apply numbersDiffer_false in Hsame.
      unfold w'. rewrite Hrun, Hsame. reflexivity.
    + intros Hdiff.
      assert (Eb : numbersDiffer g (Number (User.overallGrade u)) = true).
      { destruct (numbersDiffer g (Number (User.overallGrade u))) eqn:Eb;
          [reflexivity|].
        apply numbersDiffer_false in Eb. contradiction. }
      unfold w'. rewrite Hrun, Eb. simpl. split; [reflexivity|].
      intros u' Hin Hid. unfold sqlUpdate in Hin. apply in_map_iff in Hin.
      destruct Hin as [r [Hr _]]. unfold userHasId in Hr.
      destruct (Z.eqb_spec (User.id r) userId) as [Er|Er].
      * subst u'. reflexivity.
      * subst u'. contradiction.
  - intros Hg. unfold w'. rewrite Hg in Hrun. rewrite Hrun.
    split; [eexists; reflexivity|reflexivity].
Qed.

Lemma getDashboardData_overallGrade_witness :
  (filter (userHasId 1) (users (store worldWithProgress)) = [alice]
   /\ map CourseProgress.score (completedOf 1 worldWithProgress)
      = [100; 80; 60]%Q
   /\ doubleMean [100; 80; 60]%Q = Some (inject_Z 80)
   /\ meanRepresentable [100; 80; 60]%Q)
  /\ exists view,
       fst (getDashboardData utcEnv 1 worldWithProgress) = Returned view
       /\ (User.overallGrade (user view) == 80)%Q
       /\ (User.overallGrade (user view)
           == arithmeticMean [100; 80; 60])%Q
       /\ forall u',
            In u' (users (store (snd (getDashboardData utcEnv 1
                                        worldWithProgress)))) ->
            User.id u' = 1 -> (User.overallGrade u' == 80)%Q.
Proof.
  assert (Hrep : meanRepresentable [100; 80; 60]%Q).
  { split; [|eexists; split; [vm_compute; reflexivity|reflexivity]].
    repeat (split; [eexists; split; [vm_compute; reflexivity|reflexivity]|]).
    exact I. }
  split; [split; [reflexivity|split; [reflexivity|split;
    [vm_compute; reflexivity|exact Hrep]]]|].
  destruct (proj1 (getDashboardData_overallGrade utcEnv 1 worldWithProgress
                     alice [] eq_refl) (inject_Z 80) eq_refl)
    as [view [Hv [_ [Hg [_ [Hmean [H80 [_ Hne]]]]]]]].
  exists view. split; [exact Hv|].
  split; [rewrite Hg; reflexivity|].
  split; [rewrite Hg; exact (Hmean Hrep)|].
  intros u' Hin Hid.
  assert (Hd : ~ (exists v, Number (User.overallGrade alice) = Some v
                            /\ (inject_Z 80 == v)%Q)).
  { intros [v [E Hq]]. vm_compute in E. injection E as <-. discriminate Hq. }
  destruct (Hne Hd) as [_ Hall]. rewrite (Hall u' Hin Hid). reflexivity.
Defined.

(** A non-zero difficulty does filter. *)
Example getPracticeQuestions_by_difficulty :
  map PracticeQuestion.id
    (match fst (getPracticeQuestions "numbers" (Some 2) worldWithQuestions) with
     | Returned l => l
     | Threw _ => []
     end) = [3]
  /\ map PracticeQuestion.id
       (match fst (getPracticeQuestions "numbers" (Some 0) worldWithQuestions)
        with
        | Returned l => l
        | Threw _ => []
        end) = [1; 3].
Proof. split; reflexivity. Qed.

(** * Further properties of the storage layer *)

(** ** Unlocking: errors, frame, level *)

Lemma store_eta (s : Store) :
  mkStore (users s) (courseProgress s) (achievements s) (quizAttempts s)
    (dailyActivity s) (practiceQuestions s) (courseProgressSeq s)
    (quizAttemptsSeq s) (dailyActivitySeq s) = s.
Proof. destruct s; reflexivity. Qed.

(** X1. [unlockAchievement] for a (userId, achievementType) that has no
    achievement row throws, and by then it has written nothing: the database
    is as before and no XP is awarded. *)
Theorem unlockAchievement_missing_throws (env : Env) (userId : Z)
    (ty : string) (w : World) :
  filter (achievementHasKey userId ty) (achievements (store w)) = [] ->
  (exists e, fst (unlockAchievement env userId ty w) = Threw e)
  /\ store (snd (unlockAchievement env userId ty w)) = store w.
Proof.
  intros H. unfold unlockAchievement, sqlReturning. run. rewrite H. simpl.
  split; [eexists; reflexivity|].
  rewrite sqlUpdate_untouched by (apply filter_nil_untouched; exact H).
  unfold setAchievements. apply store_eta.
Qed.

Lemma unlockAchievement_missing_throws_witness :
  filter (achievementHasKey 1 "math_graduate")
    (achievements (store (worldWithAchievement false))) = []
  /\ store (snd (unlockAchievement utcEnv 1 "math_graduate"
                   (worldWithAchievement false)))
     = store (worldWithAchievement false).
Proof.
  split; [reflexivity|].
  exact (proj2 (unlockAchievement_missing_throws utcEnv 1 "math_graduate"
                  (worldWithAchievement false) eq_refl)).
Defined.

(** X2. [unlockAchievement] on an achievement whose xpReward is not positive
    returns it unlocked and leaves the users table alone. *)
Theorem unlockAchievement_no_reward_no_xp (env : Env) (userId : Z)
    (ty : string) (w : World) (a : Achievement.t)
    (rest : list Achievement.t) :
  filter (achievementHasKey userId ty) (achievements (store w)) = a :: rest ->
  Achievement.xpReward a <= 0 ->
  (exists a', fst (unlockAchievement env userId ty w) = Returned a'
              /\ Achievement.unlocked a' = true
              /\ Achievement.unlockedAt a' = Some (clock env (ticks w))
              /\ Achievement.id a' = Achievement.id a)
  /\ users (store (snd (unlockAchievement env userId ty w)))
     = users (store w).
Proof.
  intros Hf Hr. rewrite (unlockAchievement_found env userId ty w a rest Hf).
  simpl. replace (0 <? Achievement.xpReward a) with false
    by (symmetry; apply Z.ltb_ge; exact Hr).
  split; [|reflexivity]. eexists. repeat split.
Qed.

Lemma unlockAchievement_no_reward_no_xp_witness :
  let free := Achievement.mk 1 1 "welcome" "Welcome" "Sign up" "hi" 0 1 false
                None 0 in
  let w := mkWorld (setAchievements (setUsers emptyStore [alice]) [free]) 0 in
  (filter (achievementHasKey 1 "welcome") (achievements (store w)) = [free]
   /\ Achievement.xpReward free <= 0)
  /\ users (store (snd (unlockAchievement utcEnv 1 "welcome" w))) = [alice].
Proof.
  intros free w. split; [split; [reflexivity|simpl; lia]|].
  exact (proj2 (unlockAchievement_no_reward_no_xp utcEnv 1 "welcome" w free []
                  eq_refl ltac:(simpl; lia))).
Defined.

(** What any call of [unlockAchievement] does to the two tables it writes. *)
Lemma unlockAchievement_tables (env : Env) (userId : Z) (ty : string)
    (w : World) :
  let s' := store (snd (unlockAchievement env userId ty w)) in
  achievements s'
    = sqlUpdate (achievementHasKey userId ty)
        (markUnlocked (clock env (ticks w))) (achievements (store w))
  /\ (users s' = users (store w)
      \/ exists r, 0 < r
           /\ users s' = sqlUpdate (userHasId userId) (awardXp r)
                           (users (store w)))
  /\ courseProgress s' = courseProgress (store w)
  /\ quizAttempts s' = quizAttempts (store w)
  /\ dailyActivity s' = dailyActivity (store w)
  /\ practiceQuestions s' = practiceQuestions (store w).
Proof.
  destruct (filter (achievementHasKey userId ty) (achievements (store w)))
    as [|a rest] eqn:E; simpl.
  - unfold unlockAchievement, sqlReturning. run. rewrite E. simpl.
    repeat split; auto.
  - rewrite (unlockAchievement_found env userId ty w a rest E). simpl.
    split; [reflexivity|]. split; [|repeat split].
    destruct (Z.ltb_spec 0 (Achievement.xpReward a)); [right|left; reflexivity].
    exists (Achievement.xpReward a). split; [assumption|reflexivity].
Qed.

(** X3. Whatever its outcome, [unlockAchievement] leaves every user row of
    another id and every achievement row of another (userId, type) in place
    and unchanged, and does not write to the other four tables. *)
Theorem unlockAchievement_frame (env : Env) (userId : Z) (ty : string)
    (w : World) :
  let s' := store (snd (unlockAchievement env userId ty w)) in
  (forall n u, nth_error (users (store w)) n = Some u ->
               User.id u <> userId ->
               nth_error (users s') n = Some u)
  /\ (forall n a, nth_error (achievements (store w)) n = Some a ->
                  achievementHasKey userId ty a = false ->
                  nth_error (achievements s') n = Some a)
  /\ List.length (users s') = List.length (users (store w))
  /\ List.length (achievements s') = List.length (achievements (store w))
  /\ courseProgress s' = courseProgress (store w)
  /\ quizAttempts s' = quizAttempts (store w)
  /\ dailyActivity s' = dailyActivity (store w)
  /\ practiceQuestions s' = practiceQuestions (store w).
Proof.
  destruct (unlockAchievement_tables env userId ty w)
    as [Ha [Hu [Hc [Hq [Hd Hp]]]]].
  simpl. rewrite Ha. split; [|split; [|split; [|split]]].
  - intros n u Hn Hid. destruct Hu as [Hu|[r [_ Hu]]]; rewrite Hu.
    + exact Hn.
    + rewrite sqlUpdate_nth_error, Hn. simpl. unfold userHasId.
      destruct (Z.eqb_spec (User.id u) userId); [contradiction|reflexivity].
  - intros n a Hn Hk. rewrite sqlUpdate_nth_error, Hn. simpl. rewrite Hk.
    reflexivity.
  - destruct Hu as [Hu|[r [_ Hu]]]; rewrite Hu;
      [reflexivity|apply sqlUpdate_length].
  - apply sqlUpdate_length.
  - auto.
Qed.

(** X4. When [unlockAchievement] awards r > 0 to a user with totalXp >= 0,
    the row gets totalXp + r and the level of the old totalXp; that level is
    the level of the new totalXp exactly when the award stays within the
    current hundred, totalXp mod 100 + r < 100. *)
Theorem unlockAchievement_level_right_iff (env : Env) (userId : Z)
    (ty : string) (w : World) (a : Achievement.t)
    (rest : list Achievement.t) (n : nat) (u : User.t) :
  filter (achievementHasKey userId ty) (achievements (store w)) = a :: rest ->
  0 < Achievement.xpReward a ->
  nth_error (users (store w)) n = Some u ->
  User.id u = userId ->
  0 <= User.totalXp u ->
  exists u',
    nth_error (users (store (snd (unlockAchievement env userId ty w)))) n
      = Some u'
    /\ User.totalXp u' = User.totalXp u + Achievement.xpReward a
    /\ User.level u' = User.totalXp u / 100 + 1
    /\ (User.level u' = User.totalXp u' / 100 + 1
        <-> User.totalXp u mod 100 + Achievement.xpReward a < 100).
Proof.
  intros Hf Hr Hn Hid Hxp.
  rewrite (unlockAchievement_found env userId ty w a rest Hf). simpl.
  rewrite (proj2 (Z.ltb_lt _ _) Hr).
  exists (awardXp (Achievement.xpReward a) u).
  rewrite sqlUpdate_nth_error, Hn. simpl. unfold userHasId.
  rewrite (proj2 (Z.eqb_eq _ _) Hid).
  split; [reflexivity|]. split; [reflexivity|].
  rewrite Z.quot_div_nonneg by lia. split; [reflexivity|].
  set (x := User.totalXp u) in *. set (r := Achievement.xpReward a) in *.
  pose proof (Z.div_mod x 100 ltac:(lia)) as Hx.
  pose proof (Z.mod_pos_bound x 100 ltac:(lia)) as Hm.
  split; intros H.
  - assert (Hq : (x + r) / 100 = x / 100) by lia.
    pose proof (Z.div_mod (x + r) 100 ltac:(lia)) as Hxr.
    pose proof (Z.mod_pos_bound (x + r) 100 ltac:(lia)) as Hmr.
    rewrite Hq in Hxr. lia.
  - f_equal. apply (Z.div_unique (x + r) 100 (x / 100) (x mod 100 + r));
      lia.
Qed.

Lemma unlockAchievement_level_right_iff_witness :
  (filter (achievementHasKey 2 "number_master")
     (achievements (store (worldWithAchievement false)))
   = [numberMaster 2 2 false]
   /\ 0 < Achievement.xpReward (numberMaster 2 2 false)
   /\ nth_error (users (store (worldWithAchievement false))) 1 = Some bob
   /\ User.id bob = 2 /\ 0 <= User.totalXp bob)
  /\ exists u',
       nth_error
         (users (store (snd (unlockAchievement utcEnv 2 "number_master"
                               (worldWithAchievement false))))) 1 = Some u'
       /\ User.totalXp u' = 140 /\ User.level u' = 1.
Proof.
  split; [repeat split; simpl; lia|].
  destruct (unlockAchievement_level_right_iff utcEnv 2 "number_master"
              (worldWithAchievement false) (numberMaster 2 2 false) [] 1%nat bob
              eq_refl eq_refl eq_refl eq_refl ltac:(simpl; lia))
    as [u' [H1 [H2 [H3 _]]]].
  exists u'. split; [exact H1|]. split; [exact H2|exact H3].
Defined.

(** X5. No call of [unlockAchievement] lowers the totalXp of a user row or
    changes its id: every row stays in place with totalXp at least what it
    was. *)
Theorem unlockAchievement_totalXp_monotone (env : Env) (userId : Z)
    (ty : string) (w : World) (n : nat) (u : User.t) :
  nth_error (users (store w)) n = Some u ->
  exists u',
    nth_error (users (store (snd (unlockAchievement env userId ty w)))) n
      = Some u'
    /\ User.id u' = User.id u
    /\ User.totalXp u <= User.totalXp u'.
Proof.
  intros Hn.
  destruct (unlockAchievement_tables env userId ty w) as [_ [Hu _]].
  simpl in Hu. destruct Hu as [Hu|[r [Hr Hu]]]; rewrite Hu.
  - exists u. split; [exact Hn|]. split; [reflexivity|lia].
  - rewrite sqlUpdate_nth_error, Hn. simpl.
    destruct (userHasId userId u); eexists; (split; [reflexivity|]);
      (split; [reflexivity|]); simpl; lia.
Qed.

Lemma unlockAchievement_totalXp_monotone_witness :
  nth_error (users (store (worldWithAchievement true))) 0 = Some alice
  /\ exists u',
       nth_error
         (users (store (snd (unlockAchievement utcEnv 1 "number_master"
                               (worldWithAchievement true))))) 0 = Some u'
       /\ User.totalXp alice <= User.totalXp u'.
Proof.
  split; [reflexivity|].
  destruct (unlockAchievement_totalXp_monotone utcEnv 1 "number_master"
              (worldWithAchievement true) 0%nat alice eq_refl)
    as [u' [H1 [_ H2]]].
  exists u'. split; [exact H1|exact H2].
Defined.

Lemma unlockAchievement_frame_witness :
  nth_error (users (store (worldWithAchievement false))) 1 = Some bob
  /\ User.id bob <> 1
  /\ nth_error
       (users (store (snd (unlockAchievement utcEnv 1 "number_master"
                             (worldWithAchievement false))))) 1 = Some bob.
Proof.
  split; [reflexivity|]. split; [discriminate|].
  apply (proj1 (unlockAchievement_frame utcEnv 1 "number_master"
                  (worldWithAchievement false)) 1%nat bob eq_refl).
  discriminate.
Defined.

(** ** The streak scan: what the two numbers are *)

Lemma leadingRun_nonneg (flags : list bool) : 0 <= leadingRun flags.
Proof.
  induction flags as [|[|] flags IH]; cbn [leadingRun]; lia.
Qed.

Lemma leadingRun_le_longestRun (flags : list bool) :
  leadingRun flags <= longestRun flags.
Proof. destruct flags as [|b flags]; [reflexivity|]. cbn [longestRun]. lia. Qed.

Lemma longestRun_nonneg (flags : list bool) : 0 <= longestRun flags.
Proof.
  pose proof (leadingRun_nonneg flags).
  pose proof (leadingRun_le_longestRun flags). lia.
Qed.

Lemma streakLoop_longest (l : list DailyActivity.t) :
  forall i c lg t,
    0 <= lg -> 0 <= t ->
    Z.max (snd (fst (streakLoop l i c lg t))) (snd (streakLoop l i c lg t))
    = Z.max lg
        (Z.max (t + leadingRun (map DailyActivity.streakMaintained l))
           (longestRun (map DailyActivity.streakMaintained l))).
Proof.
  induction l as [|a l IH]; intros i c lg t Hlg Ht.
  - simpl. lia.
  - cbn [streakLoop map]. destruct (DailyActivity.streakMaintained a).
    + rewrite IH by lia. cbn [longestRun leadingRun].
      pose proof (leadingRun_nonneg (map DailyActivity.streakMaintained l)).
      lia.
    + rewrite IH by lia. cbn [longestRun leadingRun].
      pose proof (leadingRun_le_longestRun
                    (map DailyActivity.streakMaintained l)).
      pose proof (leadingRun_nonneg (map DailyActivity.streakMaintained l)).
      lia.
Qed.

Lemma longestRun_le_length (flags : list bool) :
  longestRun flags <= Z.of_nat (List.length flags)
  /\ leadingRun flags <= Z.of_nat (List.length flags).
Proof.
  induction flags as [|b flags [IH1 IH2]]; [simpl; lia|].
  assert (H : leadingRun (b :: flags) <= Z.of_nat (List.length (b :: flags))).
  { destruct b; cbn [leadingRun List.length]; lia. }
  split; [|exact H]. cbn [longestRun]. cbn [List.length] in *. lia.
Qed.

(** X6. The numbers [updateUserStreak] computes from the rows it read obey
    0 <= currentStreak <= longestStreak <= number of rows, and
    currentStreak <= 1. *)
Theorem computeStreaks_bounds (activities : list DailyActivity.t) :
  0 <= fst (computeStreaks activities)
  /\ fst (computeStreaks activities) <= 1
  /\ fst (computeStreaks activities) <= snd (computeStreaks activities)
  /\ snd (computeStreaks activities) <= Z.of_nat (List.length activities).
Proof.
  pose proof (streakLoop_longest activities 0 0 0 0 ltac:(lia) ltac:(lia)) as HL.
  pose proof (computeStreaks_current activities) as HC.
  assert (HS : snd (computeStreaks activities)
               = longestRun (map DailyActivity.streakMaintained activities)).
  { unfold computeStreaks.
    destruct (streakLoop activities 0 0 0 0) as [[c lg] t]. simpl in *.
    pose proof (leadingRun_le_longestRun
                  (map DailyActivity.streakMaintained activities)).
    pose proof (leadingRun_nonneg
                  (map DailyActivity.streakMaintained activities)).
    lia. }
  rewrite HS, HC.
  pose proof (longestRun_le_length
                (map DailyActivity.streakMaintained activities)) as [Hlen _].
  rewrite length_map in Hlen.
  pose proof (leadingRun_le_longestRun
                (map DailyActivity.streakMaintained activities)) as Hle.
  clear HL HS HC.
  destruct activities as [|a l].
  - cbn [map longestRun List.length] in *. lia.
  - cbn [map] in *.
    pose proof (leadingRun_nonneg (map DailyActivity.streakMaintained l)).
    destruct (DailyActivity.streakMaintained a); cbn [leadingRun] in Hle; lia.
Qed.

(** X7. The scan reads nothing but the flags, in order: longestStreak is the
    length of the longest run of consecutive maintained rows, and
    currentStreak is that of the leading run cut off at 1. *)
Theorem computeStreaks_runs (activities : list DailyActivity.t) :
  snd (computeStreaks activities)
    = longestRun (map DailyActivity.streakMaintained activities)
  /\ fst (computeStreaks activities)
     = Z.min 1 (leadingRun (map DailyActivity.streakMaintained activities)).
Proof.
  split.
  - pose proof (streakLoop_longest activities 0 0 0 0 ltac:(lia) ltac:(lia))
      as HL.
    unfold computeStreaks.
    destruct (streakLoop activities 0 0 0 0) as [[c lg] t]. simpl in *.
    pose proof (leadingRun_le_longestRun
                  (map DailyActivity.streakMaintained activities)).
    pose proof (leadingRun_nonneg
                  (map DailyActivity.streakMaintained activities)).
    lia.
  - rewrite computeStreaks_current. destruct activities as [|a l];
      [reflexivity|].
    cbn [map leadingRun].
    pose proof (leadingRun_nonneg (map DailyActivity.streakMaintained l)).
    destruct (DailyActivity.streakMaintained a); lia.
Qed.

(** ** Daily activity: invariants *)

(** X8. [updateDailyActivity] never records a day as not maintained: the
    row it returns has streakMaintained = true, and a table whose rows are
    all maintained stays so. *)
Theorem updateDailyActivity_keeps_maintained (env : Env) (userId : Z)
    (activity : PartialInsertDailyActivity.t) (w : World) :
  (forall r, fst (updateDailyActivity env userId activity w)
               = Returned (Some r) ->
             DailyActivity.streakMaintained r = true)
  /\ (Forall (fun a => DailyActivity.streakMaintained a = true)
        (dailyActivity (store w)) ->
      Forall (fun a => DailyActivity.streakMaintained a = true)
        (dailyActivity
           (store (snd (updateDailyActivity env userId activity w))))).
Proof.
  destruct (rowsOfToday env userId w) as [|e rest] eqn:E.
  - rewrite (updateDailyActivity_absent_run _ _ _ _ E).
    rewrite updateUserStreak_run. simpl. split.
    + intros r Hr. injection Hr as <-. reflexivity.
    + intros H. apply Forall_app. split; [exact H|].
      constructor; [reflexivity|constructor].
  - rewrite (updateDailyActivity_existing_run _ _ _ _ _ _ E). simpl. split.
    + intros r Hr. injection Hr as Hr. unfold sqlReturning in Hr.
      destruct (filter _ _) as [|x xs]; [discriminate|].
      simpl in Hr. injection Hr as <-. reflexivity.
    + intros H. unfold sqlUpdate. rewrite Forall_map.
      eapply Forall_impl; [|exact H]. simpl. intros a Ha.
      destruct (activityHasId _ a); [reflexivity|exact Ha].
Qed.

Lemma updateDailyActivity_keeps_maintained_witness :
  Forall (fun a => DailyActivity.streakMaintained a = true)
    (dailyActivity (store worldWithoutToday))
  /\ Forall (fun a => DailyActivity.streakMaintained a = true)
       (dailyActivity
          (store (snd (updateDailyActivity utcEnv 1 (answered 5)
                         worldWithoutToday)))).
Proof.
  assert (H : Forall (fun a => DailyActivity.streakMaintained a = true)
                (dailyActivity (store worldWithoutToday)))
    by (repeat constructor).
  split; [exact H|].
  exact (proj2 (updateDailyActivity_keeps_maintained utcEnv 1 (answered 5)
                  worldWithoutToday) H).
Defined.

(** X9. [updateDailyActivity] keeps the primary key of [daily_activity]:
    ids stay pairwise different and below the sequence, on the update path
    as on the insert path. *)
Theorem updateDailyActivity_keeps_primary_key (env : Env) (userId : Z)
    (activity : PartialInsertDailyActivity.t) (w : World) :
  dailyActivityIdsUnique (store w) ->
  dailyActivityIdsIssued (store w) ->
  dailyActivityIdsUnique
    (store (snd (updateDailyActivity env userId activity w)))
  /\ dailyActivityIdsIssued
       (store (snd (updateDailyActivity env userId activity w))).
Proof.
  intros Hu Hi. destruct (rowsOfToday env userId w) as [|e rest] eqn:E.
  - apply updateDailyActivity_insert_keeps_key; assumption.
  - unfold dailyActivityIdsUnique, dailyActivityIdsIssued in *.
    pose proof (updateDailyActivity_existing_keeps_ids env userId activity w
                  e rest E) as Hids.
    split; [rewrite Hids; exact Hu|].
    rewrite (updateDailyActivity_existing_run _ _ _ _ _ _ E) in *. simpl in *.
    unfold sqlUpdate. rewrite Forall_map.
    eapply Forall_impl; [|exact Hi]. simpl. intros a Ha.
    destruct (activityHasId _ a); exact Ha.
Qed.

Lemma updateDailyActivity_keeps_primary_key_witness :
  (dailyActivityIdsUnique (store worldWithoutToday)
   /\ dailyActivityIdsIssued (store worldWithoutToday))
  /\ dailyActivityIdsUnique
       (store (snd (updateDailyActivity utcEnv 1 (answered 5)
                      worldWithoutToday))).
Proof.
  assert (Hu : dailyActivityIdsUnique (store worldWithoutToday)).
  { unfold dailyActivityIdsUnique. simpl.
    repeat (constructor; [simpl; intuition discriminate|]). constructor. }
  assert (Hi : dailyActivityIdsIssued (store worldWithoutToday)).
  { unfold dailyActivityIdsIssued. simpl.
    repeat (constructor; [simpl; lia|]). constructor. }
  split; [split; assumption|].
  exact (proj1 (updateDailyActivity_keeps_primary_key utcEnv 1 (answered 5)
                  worldWithoutToday Hu Hi)).
Defined.

(** ** Ordered reads *)

Lemma insertByDateDesc_perm (a : DailyActivity.t) (l : list DailyActivity.t) :
  Permutation (insertByDateDesc a l) (a :: l).
Proof.
  induction l as [|b l IH]; simpl; [reflexivity|].
  destruct (DailyActivity.date b <=? DailyActivity.date a); [reflexivity|].
  rewrite IH. apply perm_swap.
Qed.

Lemma orderByDateDesc_perm (l : list DailyActivity.t) :
  Permutation (orderByDateDesc l) l.
Proof.
  unfold orderByDateDesc. induction l as [|a l IH]; simpl; [reflexivity|].
  rewrite insertByDateDesc_perm. apply perm_skip. exact IH.
Qed.

Lemma insertByDateDesc_sorted (a : DailyActivity.t)
    (l : list DailyActivity.t) :
  StronglySorted newerFirst l -> StronglySorted newerFirst (insertByDateDesc a l).
Proof.
  unfold newerFirst.
  induction 1 as [|b l Hs IH Hb]; simpl; [repeat constructor|].
  destruct (Z.leb_spec (DailyActivity.date b) (DailyActivity.date a)) as [Hle|Hlt].
  - constructor; [constructor; assumption|].
    constructor; [exact Hle|].
    eapply Forall_impl; [|exact Hb]. simpl. intros x Hx. lia.
  - constructor; [exact IH|].
    rewrite (Forall_forall _ (insertByDateDesc a l)). intros x Hx.
    apply (Permutation_in _ (insertByDateDesc_perm a l)) in Hx.
    destruct Hx as [<-|Hx]; [lia|].
    rewrite Forall_forall in Hb. exact (Hb x Hx).
Qed.

Lemma orderByDateDesc_sorted (l : list DailyActivity.t) :
  StronglySorted newerFirst (orderByDateDesc l).
Proof.
  unfold orderByDateDesc. induction l as [|a l IH]; simpl; [constructor|].
  apply insertByDateDesc_sorted. exact IH.
Qed.

(** X10. [getDailyActivity] returns, most recent first, exactly the rows of
    the user dated on or after the start of the window, each as often as the
    table holds it, and writes nothing. *)
Theorem getDailyActivity_ordered_window (env : Env) (userId days : Z)
    (w : World) :
  exists rows,
    fst (getDailyActivity env userId days w) = Returned rows
    /\ StronglySorted newerFirst rows
    /\ Permutation rows
         (filter
            (activityInWindow userId
               (minusDays env (clock env (ticks w)) days))
            (dailyActivity (store w)))
    /\ (forall a,
          In a rows <->
          In a (dailyActivity (store w))
          /\ DailyActivity.userId a = userId
          /\ minusDays env (clock env (ticks w)) days <= DailyActivity.date a)
    /\ store (snd (getDailyActivity env userId days w)) = store w.
Proof.
  rewrite getDailyActivity_run. unfold activityWindow. simpl.
  eexists. split; [reflexivity|].
  split; [apply orderByDateDesc_sorted|].
  split; [apply orderByDateDesc_perm|].
  split; [|reflexivity].
  intros a. split.
  - intros Hin. apply (Permutation_in _ (orderByDateDesc_perm _)) in Hin.
    apply filter_In in Hin. destruct Hin as [Hin Hw].
    unfold activityInWindow in Hw. apply andb_true_iff in Hw.
    destruct Hw as [Hu Hd]. apply Z.eqb_eq in Hu. apply Z.leb_le in Hd. tauto.
  - intros [Hin [Hu Hd]].
    apply (Permutation_in _ (Permutation_sym (orderByDateDesc_perm _))).
    apply filter_In. split; [exact Hin|].
    unfold activityInWindow. apply andb_true_iff.
    split; [apply Z.eqb_eq|apply Z.leb_le]; assumption.
Qed.

Lemma insertByCompletedAtDesc_perm (a : QuizAttempt.t)
    (l : list QuizAttempt.t) :
  Permutation (insertByCompletedAtDesc a l) (a :: l).
Proof.
  induction l as [|b l IH]; simpl; [reflexivity|].
  destruct (QuizAttempt.completedAt b <=? QuizAttempt.completedAt a);
    [reflexivity|].
  rewrite IH. apply perm_swap.
Qed.

Lemma orderByCompletedAtDesc_perm (l : list QuizAttempt.t) :
  Permutation (orderByCompletedAtDesc l) l.
Proof.
  unfold orderByCompletedAtDesc.
  induction l as [|a l IH]; simpl; [reflexivity|].
  rewrite insertByCompletedAtDesc_perm. apply perm_skip. exact IH.
Qed.

Lemma orderByCompletedAtDesc_sorted (l : list QuizAttempt.t) :
  StronglySorted laterFirst (orderByCompletedAtDesc l).
Proof.
  unfold orderByCompletedAtDesc.
  induction l as [|a l IH]; simpl; [constructor|].
  revert IH. generalize (fold_right insertByCompletedAtDesc [] l).
  clear l. intros l. unfold laterFirst.
  induction 1 as [|b l Hs IH Hb]; simpl; [repeat constructor|].
  destruct (Z.leb_spec (QuizAttempt.completedAt b) (QuizAttempt.completedAt a))
    as [Hle|Hlt].
  - constructor; [constructor; assumption|].
    constructor; [exact Hle|].
    eapply Forall_impl; [|exact Hb]. simpl. intros x Hx. lia.
  - constructor; [exact IH|].
    rewrite (Forall_forall _ (insertByCompletedAtDesc a l)). intros x Hx.
    apply (Permutation_in _ (insertByCompletedAtDesc_perm a l)) in Hx.
    destruct Hx as [<-|Hx]; [lia|].
    rewrite Forall_forall in Hb. exact (Hb x Hx).
Qed.

(** X11. [getQuizAttempts] returns the attempts of the user, latest
    completion first; with a non-empty topicId only those of that topic, and
    with an empty topicId the same as with none.  It writes nothing. *)
Theorem getQuizAttempts_ordered (userId : Z) (topicId : option string)
    (w : World) :
  exists rows,
    getQuizAttempts userId topicId w = (Returned rows, w)
    /\ StronglySorted laterFirst rows
    /\ (forall a,
          In a rows <->
          In a (quizAttempts (store w))
          /\ QuizAttempt.userId a = userId
          /\ match topicId with
             | Some t => t = "" \/ QuizAttempt.topicId a = t
             | None => True
             end)
    /\ getQuizAttempts userId (Some "") w = getQuizAttempts userId None w.
Proof.
  assert (Huser : forall a,
    In a (orderByCompletedAtDesc
            (filter (attemptOfUser userId) (quizAttempts (store w)))) <->
    In a (quizAttempts (store w)) /\ QuizAttempt.userId a = userId).
  { intros a. split.
    - intros Hin.
      apply (Permutation_in _ (orderByCompletedAtDesc_perm _)) in Hin.
      apply filter_In in Hin. unfold attemptOfUser in Hin.
      rewrite Z.eqb_eq in Hin. exact Hin.
    - intros H.
      apply (Permutation_in _
               (Permutation_sym (orderByCompletedAtDesc_perm _))).
      apply filter_In. unfold attemptOfUser. rewrite Z.eqb_eq. exact H. }
  unfold getQuizAttempts. run. destruct topicId as [t|].
  - unfold truthyString. destruct (String.eqb_spec t "") as [->|Hne]; simpl.
    + eexists. split; [reflexivity|].
      split; [apply orderByCompletedAtDesc_sorted|]. split; [|reflexivity].
      intros a. rewrite Huser. tauto.
    + eexists. split; [reflexivity|].
      split; [apply orderByCompletedAtDesc_sorted|]. split; [|reflexivity].
      intros a. split.
      * intros Hin.
        apply (Permutation_in _ (orderByCompletedAtDesc_perm _)) in Hin.
        apply filter_In in Hin. destruct Hin as [Hin Hk].
        unfold attemptHasKey in Hk. apply andb_true_iff in Hk.
        destruct Hk as [Hu Ht]. apply Z.eqb_eq in Hu.
        apply String.eqb_eq in Ht. tauto.
      * intros [Hin [Hu [Ht|Ht]]]; [contradiction|].
        apply (Permutation_in _
                 (Permutation_sym (orderByCompletedAtDesc_perm _))).
        apply filter_In. split; [exact Hin|].
        unfold attemptHasKey. apply andb_true_iff.
        split; [apply Z.eqb_eq|apply String.eqb_eq]; assumption.
  - eexists. split; [reflexivity|].
    split; [apply orderByCompletedAtDesc_sorted|]. split; [|reflexivity].
    intros a. rewrite Huser. tauto.
Qed.

Lemma getQuizAttempts_ordered_witness :
  exists rows,
    getQuizAttempts 1 (Some "numbers") worldWithAttempts
      = (Returned rows, worldWithAttempts)
    /\ map QuizAttempt.id rows = [4; 1].
Proof.
  destruct (getQuizAttempts_ordered 1 (Some "numbers") worldWithAttempts)
    as [rows [H _]].
  exists rows. split; [exact H|].
  injection H as <-. reflexivity.
Defined.

(** ** The first activity of a day *)

Lemma runs_of_all_true (flags : list bool) :
  Forall (fun b => b = true) flags ->
  leadingRun flags = Z.of_nat (List.length flags)
  /\ longestRun flags = Z.of_nat (List.length flags).
Proof.
  induction 1 as [|b flags Hb _ [IH1 IH2]]; [split; reflexivity|].
  subst b. cbn [longestRun leadingRun List.length]. rewrite IH1, IH2. lia.
Qed.

Lemma computeStreaks_all_maintained (l : list DailyActivity.t) :
  Forall (fun a => DailyActivity.streakMaintained a = true) l ->
  computeStreaks l
  = (Z.min 1 (Z.of_nat (List.length l)), Z.of_nat (List.length l)).
Proof.
  intros H.
  assert (Hf : Forall (fun b => b = true)
                 (map DailyActivity.streakMaintained l))
    by (rewrite Forall_map; exact H).
  destruct (runs_of_all_true _ Hf) as [H1 H2]. rewrite length_map in H1, H2.
  pose proof (streakLoop_longest l 0 0 0 0 ltac:(lia) ltac:(lia)) as HL.
  pose proof (computeStreaks_current l) as HC.
  rewrite H1, H2 in HL.
  destruct (computeStreaks l) as [c lg] eqn:E. unfold computeStreaks in E.
  destruct (streakLoop l 0 0 0 0) as [[c0 lg0] t0]. injection E as <- <-.
  simpl in HL, HC. f_equal; [|lia].
  rewrite HC. destruct l as [|a l]; [reflexivity|].
  inversion H as [|? ? Ha _]; subst. rewrite Ha.
  cbn [List.length]. lia.
Qed.

(** X12. On a table whose rows are all maintained, as every row this code
    writes is, the first [updateDailyActivity] of a day gives the user
    longestStreak = the number of the user's rows in the 30-day window, the
    new one included, whatever days lie between them, and
    currentStreak = 1 as soon as there is such a row. *)
Theorem updateDailyActivity_streak_counts_rows (env : Env) (userId : Z)
    (activity : PartialInsertDailyActivity.t) (w : World) :
  rowsOfToday env userId w = [] ->
  Forall (fun a => DailyActivity.streakMaintained a = true)
    (dailyActivity (store w)) ->
  let n :=
    Z.of_nat
      (List.length
         (activityWindow env userId 30
            (afterFirstOfDay env userId activity w))) in
  forall k u,
    nth_error (users (store w)) k = Some u ->
    User.id u = userId ->
    exists u',
      nth_error
        (users (store (snd (updateDailyActivity env userId activity w)))) k
        = Some u'
      /\ User.longestStreak u' = n
      /\ User.currentStreak u' = Z.min 1 n.
Proof.
  intros H0 Hall n k u Hk Hid.
  rewrite (updateDailyActivity_absent_run _ _ _ _ H0).
  rewrite updateUserStreak_run.
  assert (Hw : Forall (fun a => DailyActivity.streakMaintained a = true)
                 (activityWindow env userId 30
                    (afterFirstOfDay env userId activity w))).
  { unfold activityWindow. rewrite Forall_forall. intros a Ha.
    apply (Permutation_in _ (orderByDateDesc_perm _)) in Ha.
    apply filter_In in Ha. destruct Ha as [Ha _]. simpl in Ha.
    apply in_app_or in Ha. destruct Ha as [Ha|[<-|[]]]; [|reflexivity].
    rewrite Forall_forall in Hall. exact (Hall a Ha). }
  rewrite (computeStreaks_all_maintained _ Hw). fold n.
  cbn [snd store users setUsers].
  change (users (store (afterFirstOfDay env userId activity w)))
    with (users (store w)).
  rewrite sqlUpdate_nth_error, Hk. simpl. unfold userHasId.
  rewrite (proj2 (Z.eqb_eq _ _) Hid).
  eexists. split; [reflexivity|]. split; reflexivity.
Qed.

Lemma updateDailyActivity_streak_counts_rows_witness :
  (rowsOfToday utcEnv 1 worldWithoutToday = []
   /\ Forall (fun a => DailyActivity.streakMaintained a = true)
        (dailyActivity (store worldWithoutToday))
   /\ nth_error (users (store worldWithoutToday)) 0 = Some alice
   /\ User.id alice = 1)
  /\ exists u',
       nth_error
         (users (store (snd (updateDailyActivity utcEnv 1 (answered 5)
                               worldWithoutToday)))) 0 = Some u'
       /\ User.longestStreak u' = 2.
Proof.
  assert (H : Forall (fun a => DailyActivity.streakMaintained a = true)
                (dailyActivity (store worldWithoutToday)))
    by (repeat constructor).
  split; [repeat split; try reflexivity; exact H|].
  destruct (updateDailyActivity_streak_counts_rows utcEnv 1 (answered 5)
              worldWithoutToday eq_refl H 0%nat alice eq_refl eq_refl)
    as [u' [H1 [H2 _]]].
  exists u'. split; [exact H1|exact H2].
Defined.

(** ** One row per key *)

Lemma filter_sqlUpdate_count {A : Type} (p q : A -> bool) (f : A -> A)
    (rows : list A) :
  (forall r, q r = true -> p (f r) = p r) ->
  List.length (filter p (sqlUpdate q f rows)) = List.length (filter p rows).
Proof.
  intros Hp. unfold sqlUpdate.
  induction rows as [|r rows IH]; simpl; [reflexivity|].
  assert (E : p (if q r then f r else r) = p r).
  { destruct (q r) eqn:Eq; [apply Hp; exact Eq|reflexivity]. }
  rewrite E. destruct (p r); simpl; rewrite IH; reflexivity.
Qed.

Lemma filter_own_sqlUpdate {A : Type} (p : A -> bool) (f : A -> A)
    (rows : list A) :
  (forall r, p r = true -> p (f r) = true) ->
  filter p (sqlUpdate p f rows) = map f (filter p rows).
Proof.
  intros Hp. unfold sqlUpdate.
  induction rows as [|r rows IH]; simpl; [reflexivity|].
  destruct (p r) eqn:E.
  - rewrite (Hp r E). simpl. rewrite IH. reflexivity.
  - rewrite E. exact IH.
Qed.

Lemma progressHasKey_iff (userId : Z) (topicId : string)
    (p : CourseProgress.t) :
  progressHasKey userId topicId p = true
  <-> CourseProgress.userId p = userId /\ CourseProgress.topicId p = topicId.
Proof.
  unfold progressHasKey. rewrite andb_true_iff, Z.eqb_eq, String.eqb_eq.
  reflexivity.
Qed.

(** X13. For update objects that carry no userId or topicId other than
    those of the call, [updateCourseProgress] changes the number of rows of
    no other key and leaves the called key with its rows if it had any and
    with one row if it had none: a table with at most one row per
    (userId, topicId) stays so. *)
Theorem updateCourseProgress_rows_per_key (env : Env) (userId : Z)
    (topicId : string) (updates : PartialInsertCourseProgress.t) (w : World)
    (userId' : Z) (topicId' : string) :
  spread (PartialInsertCourseProgress.userId updates) userId = userId ->
  spread (PartialInsertCourseProgress.topicId updates) topicId = topicId ->
  let count := fun u t w0 =>
    List.length (filter (progressHasKey u t) (courseProgress (store w0))) in
  let w' := snd (updateCourseProgress env userId topicId updates w) in
  count userId topicId w' = Nat.max 1 (count userId topicId w)
  /\ (~ (userId' = userId /\ topicId' = topicId) ->
      count userId' topicId' w' = count userId' topicId' w).
Proof.
  intros Hu Ht count w'. unfold count, w'. clear count w'.
  destruct (filter (progressHasKey userId topicId) (courseProgress (store w)))
    as [|e rest] eqn:E.
  - rewrite (updateCourseProgress_insert_run _ _ _ _ _ E). simpl.
    set (row := insertedCourseProgress _ _ _).
    assert (Hrow : CourseProgress.userId row = userId
                   /\ CourseProgress.topicId row = topicId)
      by (unfold row; simpl; rewrite Hu, Ht; split; reflexivity).
    rewrite !filter_app, E. simpl.
    rewrite (proj2 (progressHasKey_iff userId topicId row) Hrow).
    split; [reflexivity|]. intros Hne.
    destruct (progressHasKey userId' topicId' row) eqn:Ek.
    + apply progressHasKey_iff in Ek. destruct Hrow, Ek. exfalso.
      apply Hne. split; congruence.
    + rewrite app_nil_r. reflexivity.
  - rewrite (updateCourseProgress_update_run _ _ _ _ _ _ _ E). simpl.
    set (set1 := applyPartialCourseProgress _).
    assert (Hset : forall r, progressHasKey userId topicId r = true ->
              CourseProgress.userId (set1 r) = CourseProgress.userId r
              /\ CourseProgress.topicId (set1 r) = CourseProgress.topicId r).
    { intros r Hr. apply progressHasKey_iff in Hr. destruct Hr as [Hr1 Hr2].
      unfold set1. simpl. rewrite Hr1, Hr2, Hu, Ht. split; reflexivity. }
    assert (Hkeep : forall u t r, progressHasKey userId topicId r = true ->
              progressHasKey u t (set1 r) = progressHasKey u t r).
    { intros u t r Hr. destruct (Hset r Hr) as [H1 H2].
      unfold progressHasKey. rewrite H1, H2. reflexivity. }
    split.
    + rewrite filter_sqlUpdate_count by (apply Hkeep). rewrite E. reflexivity.
    + intros _. apply filter_sqlUpdate_count. apply Hkeep.
Qed.

Lemma updateCourseProgress_rows_per_key_witness :
  (spread (PartialInsertCourseProgress.userId (scoreOnly 80)) 1 = 1
   /\ spread (PartialInsertCourseProgress.topicId (scoreOnly 80)) "algebra"
      = "algebra")
  /\ List.length
       (filter (progressHasKey 1 "algebra")
          (courseProgress
             (store (snd (updateCourseProgress utcEnv 1 "algebra"
                            (scoreOnly 80) worldWithProgress)))))
     = 1%nat.
Proof.
  split; [split; reflexivity|].
  rewrite (proj1 (updateCourseProgress_rows_per_key utcEnv 1 "algebra"
                    (scoreOnly 80) worldWithProgress 2 "numbers"
                    eq_refl eq_refl)).
  reflexivity.
Defined.

(** X14. [updateDailyActivity] changes the number of rows of no other
    (user, day) and leaves (userId, today) with its rows if it had any and
    with one row if it had none: a table with at most one row per user and
    day stays so. *)
Theorem updateDailyActivity_rows_per_day (env : Env) (userId : Z)
    (activity : PartialInsertDailyActivity.t) (w : World)
    (userId' day' : Z) :
  let count := fun u d w0 =>
    List.length (filter (activityOfDay u d) (dailyActivity (store w0))) in
  let w' := snd (updateDailyActivity env userId activity w) in
  count userId (todayOf env w) w' = Nat.max 1 (count userId (todayOf env w) w)
  /\ (~ (userId' = userId /\ day' = todayOf env w) ->
      count userId' day' w' = count userId' day' w).
Proof.
  intros count w'. unfold count, w'. clear count w'.
  destruct (rowsOfToday env userId w) as [|e rest] eqn:E.
  - rewrite (updateDailyActivity_absent_run _ _ _ _ E).
    rewrite updateUserStreak_run. simpl. rewrite !filter_app.
    fold (rowsOfToday env userId w). rewrite E. simpl.
    unfold activityOfDay at 1. simpl. rewrite !Z.eqb_refl. simpl.
    split; [reflexivity|]. intros Hne.
    unfold activityOfDay at 2. simpl.
    destruct (Z.eqb_spec userId userId') as [Eu|Eu];
      destruct (Z.eqb_spec (todayOf env w) day') as [Ed|Ed]; simpl;
      try (rewrite app_nil_r; reflexivity).
    exfalso. apply Hne. split; congruence.
  - rewrite (updateDailyActivity_existing_run _ _ _ _ _ _ E). simpl.
    split.
    + rewrite filter_sqlUpdate_count by (intros; apply activityOfDay_accumulate).
      fold (rowsOfToday env userId w). rewrite E. reflexivity.
    + intros _. apply filter_sqlUpdate_count.
      intros; apply activityOfDay_accumulate.
Qed.

Lemma updateDailyActivity_rows_per_day_witness :
  ~ (2 = 1 /\ 10 * msPerDay = todayOf utcEnv worldWithToday)
  /\ List.length
       (filter (activityOfDay 1 (todayOf utcEnv worldWithToday))
          (dailyActivity
             (store (snd (updateDailyActivity utcEnv 1 (answered 5)
                            worldWithToday)))))
     = 1%nat.
Proof.
  split; [intros [H _]; discriminate H|].
  rewrite (proj1 (updateDailyActivity_rows_per_day utcEnv 1 (answered 5)
                    worldWithToday 2 (10 * msPerDay))).
  reflexivity.
Defined.

(** ** Write, then read *)

(** X15. For update objects that carry no userId or topicId other than
    those of the call, and a non-empty topicId, the row
    [updateCourseProgress] returns is the first row that
    [getCourseProgress] of the same user and topic returns afterwards, and
    every row of that answer has the key. *)
Theorem updateCourseProgress_then_getCourseProgress (env : Env) (userId : Z)
    (topicId : string) (updates : PartialInsertCourseProgress.t) (w : World) :
  spread (PartialInsertCourseProgress.userId updates) userId = userId ->
  spread (PartialInsertCourseProgress.topicId updates) topicId = topicId ->
  topicId <> "" ->
  let w' := snd (updateCourseProgress env userId topicId updates w) in
  exists row rows,
    fst (updateCourseProgress env userId topicId updates w)
      = Returned (Some row)
    /\ getCourseProgress userId (Some topicId) w' = (Returned rows, w')
    /\ hd_error rows = Some row
    /\ Forall (fun p => CourseProgress.userId p = userId
                        /\ CourseProgress.topicId p = topicId) rows.
Proof.
  intros Hu Ht Hne w'. unfold w'. clear w'.
  assert (Hget : forall w0,
    getCourseProgress userId (Some topicId) w0
    = (Returned (filter (progressHasKey userId topicId)
                   (courseProgress (store w0))), w0)).
  { intros w0. unfold getCourseProgress, truthyString. run.
    destruct (String.eqb_spec topicId ""); [contradiction|reflexivity]. }
  assert (Hall : forall l,
    Forall (fun p => CourseProgress.userId p = userId
                     /\ CourseProgress.topicId p = topicId)
      (filter (progressHasKey userId topicId) l)).
  { intros l. apply Forall_forall. intros p Hp. apply filter_In in Hp.
    apply progressHasKey_iff. tauto. }
  destruct (filter (progressHasKey userId topicId) (courseProgress (store w)))
    as [|e rest] eqn:E.
  - rewrite (updateCourseProgress_insert_run _ _ _ _ _ E). simpl.
    set (row := insertedCourseProgress _ _ _).
    exists row. eexists. split; [reflexivity|].
    split; [apply Hget|]. split; [|apply Hall].
    simpl. rewrite filter_app, E. simpl.
    assert (Hrow : progressHasKey userId topicId row = true).
    { apply progressHasKey_iff. unfold row. simpl. rewrite Hu, Ht.
      split; reflexivity. }
    rewrite Hrow. reflexivity.
  - rewrite (updateCourseProgress_update_run _ _ _ _ _ _ _ E). simpl.
    set (set1 := applyPartialCourseProgress _).
    exists (set1 e). eexists.
    split; [unfold sqlReturning; rewrite E; reflexivity|].
    split; [apply Hget|]. split; [|apply Hall].
    simpl. rewrite filter_own_sqlUpdate, E; [reflexivity|].
    intros r Hr. apply progressHasKey_iff in Hr. destruct Hr as [Hr1 Hr2].
    apply progressHasKey_iff. unfold set1. simpl.
    rewrite Hr1, Hr2, Hu, Ht. split; reflexivity.
Qed.

Lemma updateCourseProgress_then_getCourseProgress_witness :
  (spread (PartialInsertCourseProgress.userId (scoreOnly 95)) 1 = 1
   /\ spread (PartialInsertCourseProgress.topicId (scoreOnly 95)) "algebra"
      = "algebra"
   /\ "algebra" <> "")
  /\ exists row rows,
       getCourseProgress 1 (Some "algebra")
         (snd (updateCourseProgress utcEnv 1 "algebra" (scoreOnly 95)
                 worldWithProgress))
       = (Returned rows,
          snd (updateCourseProgress utcEnv 1 "algebra" (scoreOnly 95)
                 worldWithProgress))
       /\ hd_error rows = Some row
       /\ (CourseProgress.id row, CourseProgress.score row) = (3, 95%Q).
Proof.
  split; [repeat split; discriminate|].
  destruct (updateCourseProgress_then_getCourseProgress utcEnv 1 "algebra"
              (scoreOnly 95) worldWithProgress eq_refl eq_refl
              ltac:(discriminate))
    as [row [rows [H1 [H2 [H3 _]]]]].
  exists row, rows. split; [exact H2|]. split; [exact H3|].
  injection H1 as <-. reflexivity.
Defined.

Lemma accountOf_streakFields (c l a s : Z) (u : User.t) :
  accountOf (applyPartialUser (streakFields c l a s) u) = accountOf u.
Proof. reflexivity. Qed.

Lemma updateDailyActivity_accounts (env : Env) (userId : Z)
    (activity : PartialInsertDailyActivity.t) (w : World) :
  map accountOf (users (store (snd (updateDailyActivity env userId activity w))))
  = map accountOf (users (store w)).
Proof.
  destruct (rowsOfToday env userId w) as [|e rest] eqn:E.
  - rewrite (updateDailyActivity_absent_run _ _ _ _ E).
    rewrite updateUserStreak_run. simpl. unfold sqlUpdate. rewrite map_map.
    apply map_ext. intros u. destruct (userHasId userId u); reflexivity.
  - rewrite (updateDailyActivity_existing_run _ _ _ _ _ _ E). reflexivity.
Qed.

Lemma saveQuizAttempt_keeps_accounts_helper (env : Env)
    (attempt : InsertQuizAttempt.t) (w : World) :
  map accountOf (users (store (snd (saveQuizAttempt env attempt w))))
  = map accountOf (users (store w)).
Proof.
  rewrite saveQuizAttempt_run. cbn [snd].
  rewrite updateDailyActivity_accounts.
  destruct (updateCourseProgress_frame env (InsertQuizAttempt.userId attempt)
              (InsertQuizAttempt.topicId attempt) (progressOfAttempt attempt)
              (afterAttemptInsert env attempt w)) as [Hu _].
  rewrite Hu. reflexivity.
Qed.

(** X16. [saveQuizAttempt] never awards XP: id, username, totalXp, level
    and overallGrade of every user row are after the call what they were
    before it, whatever the score; the xpEarned it computes goes to the
    day's activity row only. *)
Theorem saveQuizAttempt_keeps_accounts (env : Env)
    (attempt : InsertQuizAttempt.t) (w : World) :
  map accountOf (users (store (snd (saveQuizAttempt env attempt w))))
  = map accountOf (users (store w)).
Proof.
  rewrite saveQuizAttempt_run. cbn [snd].
  transitivity
    (map accountOf
       (users
          (store
             (snd (updateCourseProgress env (InsertQuizAttempt.userId attempt)
                     (InsertQuizAttempt.topicId attempt)
                     (progressOfAttempt attempt)
                     (afterAttemptInsert env attempt w)))))).
  - apply updateDailyActivity_accounts.
  - f_equal.
    exact (proj1 (updateCourseProgress_frame env
                    (InsertQuizAttempt.userId attempt)
                    (InsertQuizAttempt.topicId attempt)
                    (progressOfAttempt attempt)
                    (afterAttemptInsert env attempt w))).
Qed.

(** X17. The attempt [saveQuizAttempt] returns is among the attempts
    [getQuizAttempts] returns for its user afterwards, with no topic and,
    when the topic is not the empty string, with the attempt's topic. *)
Theorem saveQuizAttempt_then_getQuizAttempts (env : Env)
    (attempt : InsertQuizAttempt.t) (w : World) :
  let w' := snd (saveQuizAttempt env attempt w) in
  exists saved,
    fst (saveQuizAttempt env attempt w) = Returned saved
    /\ (exists rows,
          getQuizAttempts (InsertQuizAttempt.userId attempt) None w'
            = (Returned rows, w')
          /\ In saved rows)
    /\ (InsertQuizAttempt.topicId attempt <> "" ->
        exists rows,
          getQuizAttempts (InsertQuizAttempt.userId attempt)
            (Some (InsertQuizAttempt.topicId attempt)) w'
            = (Returned rows, w')
          /\ In saved rows).
Proof.
  intros w'.
  set (saved := insertedQuizAttempt (quizAttemptsSeq (store w))
                  (completedAtDefault env (ticks w)) attempt).
  assert (Hin : In saved (quizAttempts (store w'))).
  { unfold w'. rewrite saveQuizAttempt_run. cbn [snd].
    destruct (updateDailyActivity_frame env (InsertQuizAttempt.userId attempt)
                (activityOfAttempt attempt)
                (snd (updateCourseProgress env
                        (InsertQuizAttempt.userId attempt)
                        (InsertQuizAttempt.topicId attempt)
                        (progressOfAttempt attempt)
                        (afterAttemptInsert env attempt w)))) as [_ Hq].
    simpl in Hq. rewrite Hq.
    destruct (updateCourseProgress_frame env
                (InsertQuizAttempt.userId attempt)
                (InsertQuizAttempt.topicId attempt) (progressOfAttempt attempt)
                (afterAttemptInsert env attempt w)) as [_ [Hq2 _]].
    simpl in Hq2. rewrite Hq2. apply in_or_app. right. left. reflexivity. }
  exists saved. split; [rewrite saveQuizAttempt_run; reflexivity|]. split.
  - eexists. split; [reflexivity|].
    apply (Permutation_in _ (Permutation_sym (orderByCompletedAtDesc_perm _))).
    apply filter_In. split; [exact Hin|].
    unfold attemptOfUser, saved. simpl. apply Z.eqb_refl.
  - intros Hne. unfold getQuizAttempts, truthyString. run.
    destruct (String.eqb_spec (InsertQuizAttempt.topicId attempt) "");
      [contradiction|]. simpl.
    eexists. split; [reflexivity|].
    apply (Permutation_in _ (Permutation_sym (orderByCompletedAtDesc_perm _))).
    apply filter_In. split; [exact Hin|].
    unfold attemptHasKey, saved. simpl.
    rewrite Z.eqb_refl, String.eqb_refl. reflexivity.
Qed.

Lemma saveQuizAttempt_then_getQuizAttempts_witness :
  InsertQuizAttempt.topicId (attemptWithScore 75 8) <> ""
  /\ exists rows,
       getQuizAttempts 1 (Some "algebra")
         (snd (saveQuizAttempt utcEnv (attemptWithScore 75 8)
                 worldWithAttempts))
       = (Returned rows,
          snd (saveQuizAttempt utcEnv (attemptWithScore 75 8)
                 worldWithAttempts))
       /\ map QuizAttempt.id rows = [5; 3].
Proof.
  split; [discriminate|].
  destruct (saveQuizAttempt_then_getQuizAttempts utcEnv (attemptWithScore 75 8)
              worldWithAttempts) as [saved [_ [_ H]]].
  destruct (H ltac:(discriminate)) as [rows [Hrows _]].
  exists rows. split; [exact Hrows|].
  injection Hrows as <-. reflexivity.
Defined.

Lemma accounts_keep_user (id : Z) (l1 : list User.t) :
  forall l2,
    map accountOf l1 = map accountOf l2 ->
    filter (userHasId id) l1 <> [] ->
    filter (userHasId id) l2 <> [].
Proof.
  induction l1 as [|u1 l1 IH]; intros [|u2 l2] H Hne; simpl in *;
    try discriminate; [contradiction|].
  injection H as Hacc Hrest.
  assert (Hid : User.id u2 = User.id u1)
    by (unfold accountOf in Hacc; congruence).
  unfold userHasId in *. rewrite Hid.
  destruct (User.id u1 =? id); [discriminate|].
  apply IH; assumption.
Qed.

Lemma no_progress_of_user_no_key (userId : Z) (topicId : string)
    (rows : list CourseProgress.t) :
  filter (progressOfUser userId) rows = [] ->
  filter (progressHasKey userId topicId) rows = [].
Proof.
  induction rows as [|r rows IH]; simpl; [reflexivity|].
  unfold progressOfUser, progressHasKey in *.
  destruct (CourseProgress.userId r =? userId); [discriminate|].
  simpl. exact IH.
Qed.

Lemma representable_same (p q : Q) :
  (p == q)%Q -> representable q -> representable p.
Proof.
  intros H Hq. destruct (representable_Qeq p q H Hq) as [r [Hr Hrq]].
  exists r. split; [exact Hr|]. rewrite Hrq. symmetry. exact H.
Qed.

(** The grade of a single score that is a double is that score. *)
Lemma doubleMean_single (s : Q) :
  representable s ->
  exists g, doubleMean [s] = Some g /\ (g == s)%Q.
Proof.
  intros Hs.
  assert (Hmean : (arithmeticMean [s] == s)%Q).
  { unfold arithmeticMean, sumOf. simpl. field. }
  destruct (doubleMean_exact [s]) as [g [Hg Hgs]].
  - split.
    + simpl. split; [exact Hs|]. split; [|exact I].
      apply (representable_same _ s); [ring|exact Hs].
    + apply (representable_same _ s); [exact Hmean|exact Hs].
  - exists g. split; [exact Hg|]. rewrite Hgs. exact Hmean.
Qed.

(** X18. For a user that exists and has no course-progress row, and an
    attempt whose score is a double, [saveQuizAttempt] followed by
    [getDashboardData] shows the attempt's score as overallGrade when the
    score is at least 70, and 0 when it is below: a failed attempt does not
    enter the grade. *)
Theorem saveQuizAttempt_then_getDashboardData (env : Env)
    (attempt : InsertQuizAttempt.t) (w : World) :
  filter (userHasId (InsertQuizAttempt.userId attempt)) (users (store w))
    <> [] ->
  filter (progressOfUser (InsertQuizAttempt.userId attempt))
    (courseProgress (store w)) = [] ->
  representable (InsertQuizAttempt.score attempt) ->
  exists view,
    fst (getDashboardData env (InsertQuizAttempt.userId attempt)
           (snd (saveQuizAttempt env attempt w)))
      = Returned view
    /\ (User.overallGrade (user view)
        == if Qle_bool 70 (InsertQuizAttempt.score attempt)
           then InsertQuizAttempt.score attempt
           else 0)%Q.
Proof.
  intros Huser Hnone Hrep.
  set (uid := InsertQuizAttempt.userId attempt) in *.
  set (w' := snd (saveQuizAttempt env attempt w)).
  assert (Husers : filter (userHasId uid) (users (store w')) <> []).
  { apply (accounts_keep_user uid (users (store w))); [|exact Huser].
    symmetry. apply saveQuizAttempt_keeps_accounts_helper. }
  assert (Hrows : filter (progressOfUser uid) (courseProgress (store w'))
                  = [insertedCourseProgress (courseProgressSeq (store w))
                       (courseProgressDefaults env (ticks w))
                       (keyedThenSpread uid (InsertQuizAttempt.topicId attempt)
                          (progressOfAttempt attempt))]).
  { unfold w'. rewrite saveQuizAttempt_run. cbn [snd].
    destruct (updateDailyActivity_frame env uid (activityOfAttempt attempt)
                (snd (updateCourseProgress env uid
                        (InsertQuizAttempt.topicId attempt)
                        (progressOfAttempt attempt)
                        (afterAttemptInsert env attempt w)))) as [Hc _].
    simpl in Hc. fold uid. rewrite Hc.
    rewrite (updateCourseProgress_insert_run env uid
               (InsertQuizAttempt.topicId attempt) (progressOfAttempt attempt)
               (afterAttemptInsert env attempt w)
               (no_progress_of_user_no_key _ _ _ Hnone)).
    simpl. rewrite filter_app, Hnone. simpl.
    unfold progressOfUser. simpl. rewrite Z.eqb_refl. reflexivity. }
  destruct (filter (userHasId uid) (users (store w'))) as [|u' rest'] eqn:Eu;
    [contradiction|].
  pose proof (getDashboardData_found env uid w' u' rest' Eu) as Hrun.
  rewrite Hrows, overallGradeOf_scores in Hrun.
  match type of Hrun with
  | context [doubleMean ?l] =>
      assert (Hs : l = if Qle_bool 70 (InsertQuizAttempt.score attempt)
                       then [InsertQuizAttempt.score attempt] else [])
  end.
  { unfold completedCourses. simpl.
    destruct (Qle_bool 70 (InsertQuizAttempt.score attempt)); reflexivity. }
  rewrite Hs in Hrun. clear Hs.
  destruct (Qle_bool 70 (InsertQuizAttempt.score attempt)).
  - destruct (doubleMean_single _ Hrep) as [g [Hg Hgs]].
    rewrite Hg in Hrun.
    eexists. split; [rewrite Hrun; reflexivity|]. exact Hgs.
  - change (doubleMean []) with (Some 0%Q) in Hrun.
    eexists. split; [rewrite Hrun; reflexivity|]. reflexivity.
Qed.

Lemma saveQuizAttempt_then_getDashboardData_witness :
  (filter (userHasId 1) (users (store worldWithUsers)) <> []
   /\ filter (progressOfUser 1) (courseProgress (store worldWithUsers)) = []
   /\ representable 75 /\ representable 65)
  /\ (exists view,
        fst (getDashboardData utcEnv 1
               (snd (saveQuizAttempt utcEnv (attemptWithScore 75 8)
                       worldWithUsers))) = Returned view
        /\ (User.overallGrade (user view) == 75)%Q)
  /\ (exists view,
        fst (getDashboardData utcEnv 1
               (snd (saveQuizAttempt utcEnv (attemptWithScore 65 7)
                       worldWithUsers))) = Returned view
        /\ (User.overallGrade (user view) == 0)%Q).
Proof.
  assert (H1 : filter (userHasId 1) (users (store worldWithUsers)) <> [])
    by discriminate.
  assert (H75 : representable 75)
    by (eexists; split; [vm_compute; reflexivity|reflexivity]).
  assert (H65 : representable 65)
    by (eexists; split; [vm_compute; reflexivity|reflexivity]).
  split; [split; [exact H1|split; [reflexivity|split; assumption]]|]. split.
  - destruct (saveQuizAttempt_then_getDashboardData utcEnv
                (attemptWithScore 75 8) worldWithUsers H1 eq_refl H75)
      as [view [Hv Hg]].
    exists view. split; [exact Hv|exact Hg].
  - destruct (saveQuizAttempt_then_getDashboardData utcEnv
                (attemptWithScore 65 7) worldWithUsers H1 eq_refl H65)
      as [view [Hv Hg]].
    exists view. split; [exact Hv|exact Hg].
Defined.

(** ** Users *)

Lemma updateUser_run (env : Env) (id : Z) (updates : PartialUser.t)
    (w : World) :
  updateUser env id updates w =
    (Returned
       (hd_error
          (sqlReturning (userHasId id)
             (applyPartialUser (withUpdatedAt updates (clock env (ticks w))))
             (users (store w)))),
     mkWorld
       (setUsers (store w)
          (sqlUpdate (userHasId id)
             (applyPartialUser (withUpdatedAt updates (clock env (ticks w))))
             (users (store w))))
       (S (ticks w))).
Proof. reflexivity. Qed.

(** X19. [updateUser] for an id no user row has returns undefined and
    leaves the database as it is. *)
Theorem updateUser_missing (env : Env) (id : Z) (updates : PartialUser.t)
    (w : World) :
  filter (userHasId id) (users (store w)) = [] ->
  fst (updateUser env id updates w) = Returned None
  /\ store (snd (updateUser env id updates w)) = store w.
Proof.
  intros H. rewrite updateUser_run. unfold sqlReturning. rewrite H. simpl.
  split; [reflexivity|].
  rewrite sqlUpdate_untouched by (apply filter_nil_untouched; exact H).
  unfold setUsers. apply store_eta.
Qed.

Lemma updateUser_missing_witness :
  filter (userHasId 7) (users (store worldWithUsers)) = []
  /\ fst (updateUser utcEnv 7 (streakFields 3 3 0 0) worldWithUsers)
     = Returned None.
Proof.
  split; [reflexivity|].
  exact (proj1 (updateUser_missing utcEnv 7 (streakFields 3 3 0 0)
                  worldWithUsers eq_refl)).
Defined.

(** X20. When the update object carries no other id, the row [updateUser]
    returns is the row [getUser] of that id returns afterwards: the first
    row of the id with the given fields merged in and updatedAt set from the
    clock. *)
Theorem updateUser_then_getUser (env : Env) (id : Z) (updates : PartialUser.t)
    (w : World) (u : User.t) (rest : list User.t) :
  filter (userHasId id) (users (store w)) = u :: rest ->
  spread (PartialUser.id updates) id = id ->
  let u' := applyPartialUser (withUpdatedAt updates (clock env (ticks w))) u in
  let w' := snd (updateUser env id updates w) in
  fst (updateUser env id updates w) = Returned (Some u')
  /\ getUser id w' = (Returned (Some u'), w')
  /\ User.id u' = id
  /\ User.updatedAt u' = Some (clock env (ticks w)).
Proof.
  intros Hf Hid u' w'. unfold w'. rewrite updateUser_run.
  unfold sqlReturning. rewrite Hf. simpl.
  assert (Hu : User.id u = id).
  { assert (Hin : In u (filter (userHasId id) (users (store w))))
      by (rewrite Hf; left; reflexivity).
    apply filter_In in Hin. unfold userHasId in Hin. apply Z.eqb_eq. tauto. }
  split; [reflexivity|]. split; [|split; [|reflexivity]].
  - unfold getUser. run. rewrite filter_own_sqlUpdate, Hf; [reflexivity|].
    intros r Hr. unfold userHasId in *. simpl. apply Z.eqb_eq in Hr.
    rewrite Hr, Hid. apply Z.eqb_refl.
  - unfold u'. simpl. rewrite Hu. exact Hid.
Qed.

Lemma updateUser_then_getUser_witness :
  (filter (userHasId 2) (users (store worldWithUsers)) = [bob]
   /\ spread (PartialUser.id (gradeFields 55 0)) 2 = 2)
  /\ exists u',
       getUser 2 (snd (updateUser utcEnv 2 (gradeFields 55 0) worldWithUsers))
       = (Returned (Some u'),
          snd (updateUser utcEnv 2 (gradeFields 55 0) worldWithUsers))
       /\ User.overallGrade u' = 55%Q.
Proof.
  split; [split; reflexivity|].
  destruct (updateUser_then_getUser utcEnv 2 (gradeFields 55 0) worldWithUsers
              bob [] eq_refl eq_refl) as [_ [H _]].
  eexists. split; [exact H|reflexivity].
Defined.

(** X21. [getDashboardData] for an id no user row has throws, after its
    reads and before any write: the database is as before. *)
Theorem getDashboardData_missing_throws (env : Env) (userId : Z) (w : World) :
  filter (userHasId userId) (users (store w)) = [] ->
  (exists e, fst (getDashboardData env userId w) = Threw e)
  /\ store (snd (getDashboardData env userId w)) = store w.
Proof.
  intros H. unfold getDashboardData. run. rewrite H. simpl.
  split; [eexists; reflexivity|reflexivity].
Qed.

Lemma getDashboardData_missing_throws_witness :
  filter (userHasId 7) (users (store worldWithProgress)) = []
  /\ exists e, fst (getDashboardData utcEnv 7 worldWithProgress) = Threw e.
Proof.
  split; [reflexivity|].
  exact (proj1 (getDashboardData_missing_throws utcEnv 7 worldWithProgress
                  eq_refl)).
Defined.

(** ** Achievement progress *)

(** X22. [updateAchievement] sets progress, unclamped, on the rows of
    (userId, type) and returns the first of them, or undefined when there is
    none.  It never unlocks and never awards: unlocked, unlockedAt and
    xpReward of every achievement row and the whole users table are left as
    they are, also when progress reaches maxProgress. *)
Theorem updateAchievement_progress_only (userId : Z) (ty : string)
    (progress : Z) (w : World) :
  let r := updateAchievement userId ty progress w in
  map lockOf (achievements (store (snd r)))
    = map lockOf (achievements (store w))
  /\ users (store (snd r)) = users (store w)
  /\ (forall a', In a' (achievements (store (snd r))) ->
                 achievementHasKey userId ty a' = true ->
                 Achievement.progress a' = progress)
  /\ (forall a rest,
        filter (achievementHasKey userId ty) (achievements (store w))
          = a :: rest ->
        fst r = Returned (Some (withProgress progress a)))
  /\ (filter (achievementHasKey userId ty) (achievements (store w)) = [] ->
      fst r = Returned None /\ store (snd r) = store w).
Proof.
  unfold updateAchievement. run. unfold sqlReturning.
  split; [|split; [reflexivity|split; [|split]]].
  - unfold sqlUpdate. rewrite map_map. apply map_ext. intros a.
    destruct (achievementHasKey userId ty a); reflexivity.
  - intros a' Hin Hk. unfold sqlUpdate in Hin. apply in_map_iff in Hin.
    destruct Hin as [a [Ha _]].
    destruct (achievementHasKey userId ty a) eqn:E.
    + subst a'. reflexivity.
    + subst a'. rewrite E in Hk. discriminate.
  - intros a rest Hf. rewrite Hf. reflexivity.
  - intros Hf. rewrite Hf. split; [reflexivity|].
    rewrite sqlUpdate_untouched by (apply filter_nil_untouched; exact Hf).
    unfold setAchievements. apply store_eta.
Qed.

Lemma updateAchievement_progress_only_witness :
  filter (achievementHasKey 1 "number_master")
    (achievements (store (worldWithAchievement false)))
  = [numberMaster 1 1 false]
  /\ map (fun a => (Achievement.progress a, Achievement.unlocked a))
       (achievements
          (store (snd (updateAchievement 1 "number_master" 1
                         (worldWithAchievement false)))))
     = [(1, false); (0, false)]
  /\ fst (updateAchievement 1 "number_master" 1 (worldWithAchievement false))
     = Returned (Some (withProgress 1 (numberMaster 1 1 false))).
Proof.
  split; [reflexivity|]. split; [reflexivity|].
  exact (proj1 (proj2 (proj2 (proj2
           (updateAchievement_progress_only 1 "number_master" 1
              (worldWithAchievement false)))))
           (numberMaster 1 1 false) [] eq_refl).
Defined.

(** ** Creating a user *)

Lemma createUser_run (seeds : Seeds) (insertUser : InsertUser.t)
    (c : Catalog) :
  let user :=
    insertedUser (usersSeq c) (userDefaults seeds (ticks (world c)))
      insertUser in
  createUser seeds insertUser c =
    (user,
     mkCatalog
       (mkWorld
          (setAchievements
             (setUsers (store (world c)) (users (store (world c)) ++ [user]))
             (achievements (store (world c))
                ++ defaultAchievements seeds (achievementsSeq c) (usersSeq c)
                     (achievementDefaults seeds (ticks (world c)))))
          (ticks (world c)))
       (usersSeq c + 1)
       (achievementsSeq c + 4)).
Proof. reflexivity. Qed.

Lemma defaultAchievements_rows (seeds : Seeds) (firstId userId : Z)
    (defaults : Achievement.t) :
  map (fun a => (Achievement.id a, Achievement.userId a,
                 Achievement.achievementType a, Achievement.maxProgress a,
                 Achievement.xpReward a))
    (defaultAchievements seeds firstId userId defaults)
  = [(firstId, userId, "number_master", 1, 100);
     (firstId + 1, userId, "perfect_score", 5, 250);
     (firstId + 2, userId, "streak_master", 7, 200);
     (firstId + 3, userId, "math_graduate", 8, 500)].
Proof.
  unfold defaultAchievements. destruct (icons seeds) as [[[i1 i2] i3] i4].
  reflexivity.
Qed.

Lemma issued_users_miss_next (c : Catalog) :
  catalogIssued c ->
  Forall (fun u => userHasId (usersSeq c) u = false) (users (store (world c)))
  /\ Forall (fun a => (Achievement.userId a =? usersSeq c) = false)
       (achievements (store (world c))).
Proof.
  intros [Hu Ha]. split.
  - eapply Forall_impl; [|exact Hu]. simpl. intros u H. unfold userHasId.
    apply Z.eqb_neq. lia.
  - eapply Forall_impl; [|exact Ha]. simpl. intros a [_ H].
    apply Z.eqb_neq. lia.
Qed.

Lemma filter_none {A : Type} (q : A -> bool) (rows : list A) :
  Forall (fun r => q r = false) rows -> filter q rows = [].
Proof.
  induction 1 as [|r rows Hr _ IH]; simpl; [reflexivity|].
  rewrite Hr. exact IH.
Qed.

(** X23. [createUser] gives the new user the next serial id and keeps the
    books of the two tables it inserts into: user ids stay pairwise
    different, all ids stay below their sequences, and every achievement
    still belongs to a created user. *)
Theorem createUser_keeps_catalog (seeds : Seeds) (insertUser : InsertUser.t)
    (c : Catalog) :
  catalogIssued c ->
  NoDup (map User.id (users (store (world c)))) ->
  let user := fst (createUser seeds insertUser c) in
  let c' := snd (createUser seeds insertUser c) in
  User.id user = usersSeq c
  /\ User.username user = InsertUser.username insertUser
  /\ catalogIssued c'
  /\ NoDup (map User.id (users (store (world c')))).
Proof.
  intros [Hu Ha] Hnd. rewrite createUser_run. cbn [fst snd].
  split; [reflexivity|]. split; [reflexivity|]. split; [split|].
  - simpl. apply Forall_app. split.
    + eapply Forall_impl; [|exact Hu]. simpl. intros; lia.
    + constructor; [simpl; lia|constructor].
  - simpl. apply Forall_app. split.
    + eapply Forall_impl; [|exact Ha]. simpl. intros; lia.
    + unfold defaultAchievements.
      destruct (icons seeds) as [[[i1 i2] i3] i4].
      repeat (constructor; [simpl; lia|]). constructor.
  - simpl. rewrite map_app. simpl.
    apply NoDup_rev in Hnd. rewrite <- (rev_involutive (_ ++ _)).
    apply NoDup_rev. rewrite rev_app_distr. simpl.
    constructor; [|exact Hnd].
    rewrite <- in_rev. intros Hin. apply in_map_iff in Hin.
    destruct Hin as [u [Hid Hin]].
    rewrite Forall_forall in Hu. specialize (Hu u Hin). lia.
Qed.

Lemma catalogWithUsers_issued : catalogIssued catalogWithUsers.
Proof.
  split; simpl; repeat (constructor; [simpl; lia|]); constructor.
Qed.

Lemma createUser_keeps_catalog_witness :
  (catalogIssued catalogWithUsers
   /\ NoDup (map User.id (users (store (world catalogWithUsers)))))
  /\ User.id (fst (createUser plainSeeds (named "carol") catalogWithUsers)) = 3
  /\ catalogIssued (snd (createUser plainSeeds (named "carol")
                           catalogWithUsers)).
Proof.
  assert (Hnd : NoDup (map User.id (users (store (world catalogWithUsers))))).
  { simpl. repeat (constructor; [simpl; intuition discriminate|]).
    constructor. }
  split; [split; [exact catalogWithUsers_issued|exact Hnd]|].
  destruct (createUser_keeps_catalog plainSeeds (named "carol")
              catalogWithUsers catalogWithUsers_issued Hnd)
    as [H1 [_ [H3 _]]].
  split; [exact H1|exact H3].
Defined.

(** X24. After [createUser], [getUser] of the returned id returns the
    created user, and so does [getUserByUsername] of its username when no
    earlier user carries that name. *)
Theorem createUser_then_getUser (seeds : Seeds) (insertUser : InsertUser.t)
    (c : Catalog) :
  catalogIssued c ->
  let user := fst (createUser seeds insertUser c) in
  let w' := world (snd (createUser seeds insertUser c)) in
  getUser (User.id user) w' = (Returned (Some user), w')
  /\ (filter (userHasName (InsertUser.username insertUser))
        (users (store (world c))) = [] ->
      getUserByUsername (InsertUser.username insertUser) w'
        = (Returned (Some user), w')).
Proof.
  intros Hc. destruct (issued_users_miss_next c Hc) as [Hmiss _].
  rewrite createUser_run. cbn [fst snd world]. split.
  - unfold getUser. run. rewrite filter_app, (filter_none _ _ Hmiss). simpl.
    unfold userHasId. simpl. rewrite Z.eqb_refl. reflexivity.
  - intros Hname. unfold getUserByUsername. run.
    rewrite filter_app, Hname. simpl. unfold userHasName. simpl.
    rewrite String.eqb_refl. reflexivity.
Qed.

Lemma createUser_then_getUser_witness :
  (catalogIssued catalogWithUsers
   /\ filter (userHasName "carol") (users (store (world catalogWithUsers)))
      = [])
  /\ exists u,
       fst (getUserByUsername "carol"
              (world (snd (createUser plainSeeds (named "carol")
                             catalogWithUsers)))) = Returned (Some u)
       /\ (User.id u, User.username u, User.level u) = (3, "carol", 1).
Proof.
  split; [split; [exact catalogWithUsers_issued|reflexivity]|].
  destruct (createUser_then_getUser plainSeeds (named "carol") catalogWithUsers
              catalogWithUsers_issued) as [_ H].
  eexists. split; [exact (f_equal fst (H eq_refl))|reflexivity].
Defined.

(** X25. After [createUser], [getUserAchievements] of the new id returns
    exactly the four default achievements, in order: number_master,
    perfect_score, streak_master and math_graduate with maxProgress
    1, 5, 7, 8 and xpReward 100, 250, 200, 500, under four consecutive new
    ids; the achievements of other users are as before. *)
Theorem createUser_seeds_achievements (seeds : Seeds)
    (insertUser : InsertUser.t) (c : Catalog) :
  catalogIssued c ->
  let user := fst (createUser seeds insertUser c) in
  let w' := world (snd (createUser seeds insertUser c)) in
  (exists rows,
     getUserAchievements (User.id user) w' = (Returned rows, w')
     /\ map (fun a => (Achievement.id a, Achievement.userId a,
                       Achievement.achievementType a,
                       Achievement.maxProgress a, Achievement.xpReward a))
          rows
        = [(achievementsSeq c, User.id user, "number_master", 1, 100);
           (achievementsSeq c + 1, User.id user, "perfect_score", 5, 250);
           (achievementsSeq c + 2, User.id user, "streak_master", 7, 200);
           (achievementsSeq c + 3, User.id user, "math_graduate", 8, 500)])
  /\ (forall other,
        other <> User.id user ->
        fst (getUserAchievements other w')
          = fst (getUserAchievements other (world c))).
Proof.
  intros Hc. destruct (issued_users_miss_next c Hc) as [_ Hmiss].
  rewrite createUser_run. cbn [fst snd world]. split.
  - eexists. unfold getUserAchievements. run. split; [reflexivity|].
    rewrite filter_app, (filter_none _ _ Hmiss). simpl.
    rewrite <- (defaultAchievements_rows seeds (achievementsSeq c)
                  (usersSeq c)
                  (achievementDefaults seeds (ticks (world c)))).
    f_equal. unfold defaultAchievements.
    destruct (icons seeds) as [[[i1 i2] i3] i4]. simpl.
    rewrite !Z.eqb_refl. reflexivity.
  - intros other Hne. unfold getUserAchievements. run. f_equal.
    rewrite filter_app. simpl in Hne.
    replace (filter _ (defaultAchievements _ _ _ _)) with (@nil Achievement.t);
      [apply app_nil_r|].
    symmetry. apply filter_none. unfold defaultAchievements.
    destruct (icons seeds) as [[[i1 i2] i3] i4].
    repeat (constructor; [simpl; apply Z.eqb_neq; congruence|]). constructor.
Qed.

Lemma createUser_seeds_achievements_witness :
  catalogIssued catalogWithUsers
  /\ exists rows,
       fst (getUserAchievements 3
              (world (snd (createUser plainSeeds (named "carol")
                             catalogWithUsers)))) = Returned rows
       /\ map Achievement.xpReward rows = [100; 250; 200; 500]
       /\ map Achievement.unlocked rows = [false; false; false; false].
Proof.
  split; [exact catalogWithUsers_issued|].
  destruct (createUser_seeds_achievements plainSeeds (named "carol")
              catalogWithUsers catalogWithUsers_issued) as [[rows [H _]] _].
  exists rows. split; [exact (f_equal fst H)|].
  injection H as <-. split; reflexivity.
Defined.

Lemma seeded_achievement_of_type (seeds : Seeds) (firstId userId : Z)
    (defaults : Achievement.t) (ty : string) (reward : Z) :
  In (ty, reward)
    [("number_master", 100); ("perfect_score", 250);
     ("streak_master", 200); ("math_graduate", 500)] ->
  exists a,
    filter (achievementHasKey userId ty)
      (defaultAchievements seeds firstId userId defaults) = [a]
    /\ Achievement.userId a = userId
    /\ Achievement.achievementType a = ty
    /\ Achievement.xpReward a = reward
    /\ 0 < reward.
Proof.
  intros Hin. unfold defaultAchievements.
  destruct (icons seeds) as [[[i1 i2] i3] i4]. simpl in Hin.
  destruct Hin as [E|[E|[E|[E|[]]]]]; injection E as <- <-;
    unfold achievementHasKey; simpl; rewrite !Z.eqb_refl; simpl;
    eexists; (split; [reflexivity|]); repeat split; lia.
Qed.

(** X26. After [createUser], [unlockAchievement] of any of the four seeded
    types for the new user returns that achievement and adds its xpReward to
    the new user's totalXp; the rows of all earlier users stay as they
    are. *)
Theorem createUser_then_unlockAchievement (env : Env) (seeds : Seeds)
    (insertUser : InsertUser.t) (c : Catalog) (ty : string) (reward : Z) :
  catalogIssued c ->
  In (ty, reward)
    [("number_master", 100); ("perfect_score", 250);
     ("streak_master", 200); ("math_graduate", 500)] ->
  let user := fst (createUser seeds insertUser c) in
  let w' := world (snd (createUser seeds insertUser c)) in
  exists a,
    fst (unlockAchievement env (User.id user) ty w') = Returned a
    /\ Achievement.userId a = User.id user
    /\ Achievement.achievementType a = ty
    /\ Achievement.unlocked a = true
    /\ Achievement.xpReward a = reward
    /\ users (store (snd (unlockAchievement env (User.id user) ty w')))
       = users (store (world c)) ++ [awardXp reward user].
Proof.
  intros Hc Hin. destruct (issued_users_miss_next c Hc) as [Hu Ha].
  rewrite createUser_run. cbn [fst snd world].
  set (user := insertedUser _ _ _).
  set (w' := mkWorld _ _).
  change (User.id user) with (usersSeq c).
  destruct (seeded_achievement_of_type seeds (achievementsSeq c) (usersSeq c)
              (achievementDefaults seeds (ticks (world c))) ty reward Hin)
    as [a [Hf [Hau [Hat [Hr Hpos]]]]].
  assert (Hkeys :
    filter (achievementHasKey (usersSeq c) ty) (achievements (store w'))
    = [a]).
  { unfold w'. simpl. rewrite filter_app, Hf.
    rewrite filter_none; [reflexivity|].
    eapply Forall_impl; [|exact Ha]. simpl. intros x H.
    unfold achievementHasKey. rewrite H. reflexivity. }
  exists (markUnlocked (clock env (ticks w')) a).
  rewrite (unlockAchievement_found env _ _ w' _ _ Hkeys).
  cbn [fst snd store users setUsers]. rewrite Hr.
  rewrite (proj2 (Z.ltb_lt _ _) Hpos).
  split; [reflexivity|]. split; [exact Hau|]. split; [exact Hat|].
  split; [reflexivity|]. split; [exact Hr|].
  unfold w'. simpl. unfold sqlUpdate. rewrite map_app. simpl.
  unfold userHasId at 2. simpl. rewrite Z.eqb_refl. f_equal.
  apply (sqlUpdate_untouched (userHasId (usersSeq c)) (awardXp reward)).
  exact Hu.
Qed.

Lemma createUser_then_unlockAchievement_witness :
  (catalogIssued catalogWithUsers
   /\ In ("math_graduate", 500)
        [("number_master", 100); ("perfect_score", 250);
         ("streak_master", 200); ("math_graduate", 500)])
  /\ map (fun u => (User.id u, User.totalXp u, User.level u))
       (users
          (store
             (snd (unlockAchievement utcEnv 3 "math_graduate"
                     (world (snd (createUser plainSeeds (named "carol")
                                    catalogWithUsers)))))))
     = [(1, 250, 3); (2, 40, 1); (3, 500, 1)].
Proof.
  assert (Hin : In ("math_graduate", 500)
                  [("number_master", 100); ("perfect_score", 250);
                   ("streak_master", 200); ("math_graduate", 500)])
    by (simpl; tauto).
  split; [split; [exact catalogWithUsers_issued|exact Hin]|].
  destruct (createUser_then_unlockAchievement utcEnv plainSeeds (named "carol")
              catalogWithUsers "math_graduate" 500 catalogWithUsers_issued Hin)
    as [a [_ [_ [_ [_ [_ H]]]]]].
  exact (f_equal
           (map (fun u => (User.id u, User.totalXp u, User.level u))) H).
Defined.
